(** * Retrieval subsystem of the agentic RAG server: [tools/chromadb_tool.py]

    A shallow embedding of [ChromaTool], the document store that sits on
    top of a vector index, and the properties of its operations:
    [add_documents], [search], [search_formatted], [delete_collection]
    and [get_collection_stats].

    Python values are modelled as follows.
    - [str] is [string]; its characters are the elements of the string.
    - a metadata [dict] is a finite map from keys to rendered values.
    - the [dict] returned by [search] is a finite map from keys to lists.
    - an [Optional[List[...]]] argument is an [option (list ...)].
    - a [float] distance is a rational number; only its order is used.
    - an exception is an [Error] carried by the result of a computation.
    - [print] calls write to standard output only and are left out.

    The vector index ([chromadb]) and the embedding model are external
    to the repository.  The index is modelled from the specification of
    the store; the embedding model and the metric appear as a parameter,
    the distance between a query text and a document text.  What the
    host does when the constructor creates the directory, opens the
    client and loads the model is a parameter too, a [Setup]: each of
    the three statements goes through or raises. *)

From Stdlib Require Import QArith.
From stdpp Require Import gmap strings list sorting pretty.

Local Close Scope Q_scope.

(** ** Strings *)

(** The line feed written [\n] in the Python source. *)
Definition LF : string := String (Ascii.ascii_of_nat 10) EmptyString.

(** [s * n] on a Python string. *)
Fixpoint str_repeat (s : string) (n : nat) : string :=
  match n with
  | 0 => EmptyString
  | S n' => s +:+ str_repeat s n'
  end.

(** [s[:n]] on a Python string. *)
Fixpoint str_prefix (n : nat) (s : string) : string :=
  match n, s with
  | S n', String a s' => String a (str_prefix n' s')
  | _, _ => EmptyString
  end.

(** ** Data model *)

(** A metadata dict; values are kept in the form an f-string renders. *)
Abbreviation Metadata := (gmap string string).

(** Truth value of a dict: [if meta:] holds for a non-empty dict. *)
Definition dict_truthy (m : Metadata) : bool := negb (bool_decide (m = ∅)).

Record Document := mkDocument {
  doc_id : string;
  doc_text : string;
  doc_meta : Metadata
}.

(** The persistent client state: collections by name. *)
Abbreviation Client := (gmap string (list Document)).

(** The tool object: the attributes assigned by [__init__].  [collection]
    is the handle obtained once from [get_or_create_collection]; the
    client itself is the state threaded through every method. *)
Record ChromaTool := mkChromaTool {
  persist_dir : string;
  collection_name : string;
  collection : string
}.

Record Stats := mkStats {
  stats_collection_name : string;
  document_count : nat;
  stats_persist_dir : string
}.

(** Values bound in the dict returned by [search]. *)
Inductive Value :=
  | VStrs (l : list string)
  | VDists (l : list Q)
  | VMetas (l : list Metadata).

(** ** Computations over the client state *)

Inductive Error :=
  | InvalidArgument
  | DuplicateIdError
  | StorageError
  | StorageInitError
  | KeyError.

Inductive result (A : Type) :=
  | Ok (a : A)
  | Err (e : Error).
Arguments Ok {A} a.
Arguments Err {A} e.

Definition M (A : Type) : Type := Client → result A * Client.

Definition ret {A} (a : A) : M A := λ c, (Ok a, c).

Definition raise {A} (e : Error) : M A := λ c, (Err e, c).

Definition bind {A B} (m : M A) (k : A → M B) : M B :=
  λ c, match m c with
       | (Ok a, c') => k a c'
       | (Err e, c') => (Err e, c')
       end.

Notation "x <- m ;; k" := (bind m (λ x, k))
  (at level 100, m at next level, right associativity).

(** The statements of [ChromaTool.__init__] that reach outside the
    program: creating the directory, opening the persistent client on it
    and loading the embedding model.  Each is external and can raise;
    [None] stands for a statement that went through. *)
Record Setup := mkSetup {
  makedirs : string → option Error;
  persistent_client : string → option Error;
  embedding_function : string → option Error
}.

(** A statement that raises or goes through, without touching the store. *)
Definition attempt (outcome : option Error) : M unit :=
  λ c, match outcome with
       | Some e => (Err e, c)
       | None => (Ok (), c)
       end.

(** Modelled from the spec: the choice left to the index provider when
    an id is already present, to fail or to overwrite. *)
Inductive DuplicatePolicy := Reject | Overwrite.

(** ** The vector index provider *)

(** Modelled from the spec: what [collection.query] returns, one ranked
    row per query text, as four parallel lists of rows. *)
Record QueryResult := mkQueryResult {
  qr_ids : list (list string);
  qr_documents : list (list string);
  qr_distances : list (list Q);
  qr_metadatas : list (list Metadata)
}.

(** Modelled from the spec: upsert by id.  The document takes the place
    of the one that has its id, or goes last when there is none. *)
Fixpoint upsert (d : Document) (ds : list Document) : list Document :=
  match ds with
  | [] => [d]
  | d' :: ds' =>
      if decide (doc_id d' = doc_id d) then d :: ds' else d' :: upsert d ds'
  end.

(** Modelled from the spec: the documents of one [collection.add] call,
    from its three parallel lists. *)
Definition new_documents (documents ids : list string)
    (metadatas : list Metadata) : list Document :=
  zip_with (λ p m, mkDocument p.1 p.2 m) (zip ids documents) metadatas.

Section Store.

(** The host the tool is constructed on. *)
Variable setup : Setup.

(** The embedding model together with the metric: the cosine distance
    between the embedding of a query text and that of a document text. *)
Variable distance : string → string → Q.

Variable duplicate_policy : DuplicatePolicy.

(** Modelled from the spec: [client.get_or_create_collection] of the
    vector index provider, which is not part of the repository.  Opens
    the named collection, creating it empty when it does not exist. *)
Definition get_or_create_collection (name : string) : M string :=
  λ c, match c !! name with
       | Some _ => (Ok name, c)
       | None => (Ok name, <[name := []]> c)
       end.

(** Modelled from the spec: [client.delete_collection] of the vector
    index provider.  Removes the named collection with all its
    documents; deleting a missing collection is a storage failure. *)
Definition client_delete_collection (name : string) : M unit :=
  λ c, match c !! name with
       | Some _ => (Ok (), delete name c)
       | None => (Err StorageError, c)
       end.

(** Modelled from the spec: [collection.count] of the vector index
    provider, the exact number of documents the handle's collection
    holds in the store; a handle whose collection is gone fails. *)
Definition collection_count (h : string) : M nat :=
  λ c, match c !! h with
       | Some ds => (Ok (length ds), c)
       | None => (Err StorageError, c)
       end.

(** Modelled from the spec: [collection.add] of the vector index
    provider.  An empty document list and id or metadata lists of
    another length are invalid arguments; the call commits all of its
    documents or nothing; an id already present is rejected or
    overwritten, by the provider's policy. *)
Definition collection_add (h : string) (documents ids : list string)
    (metadatas : list Metadata) : M unit :=
  λ c,
    if decide (documents = [] ∨ length ids ≠ length documents
               ∨ length metadatas ≠ length documents)
    then (Err InvalidArgument, c)
    else match c !! h with
         | None => (Err StorageError, c)
         | Some ds =>
             let new := new_documents documents ids metadatas in
             match duplicate_policy with
             | Reject =>
                 if decide (NoDup ids ∧ Forall (λ i, i ∉ doc_id <$> ds) ids)
                 then (Ok (), <[h := ds ++ new]> c)
                 else (Err DuplicateIdError, c)
             | Overwrite =>
                 (Ok (), <[h := foldl (λ acc d, upsert d acc) ds new]> c)
             end
         end.

(** Modelled from the spec: the nearest-neighbour ranking of the vector
    index.  The [n] documents nearest to [q], nearest first, each with
    its distance. *)
Definition rank (q : string) (n : nat) (ds : list Document)
    : list (Document * Q) :=
  take n (merge_sort (λ x y, Is_true (Qle_bool x.2 y.2))
            ((λ d, (d, distance q (doc_text d))) <$> ds)).

(** Modelled from the spec: [collection.query] of the vector index
    provider.  For each query text the [n_results] nearest documents by
    distance, fewer when the collection holds fewer; [n_results] below
    one is an invalid argument. *)
Definition collection_query (h : string) (query_texts : list string)
    (n_results : Z) : M QueryResult :=
  λ c,
    if decide (n_results < 1)%Z then (Err InvalidArgument, c)
    else match c !! h with
         | None => (Err StorageError, c)
         | Some ds =>
             let rows := (λ q, rank q (Z.to_nat n_results) ds) <$> query_texts in
             (Ok {| qr_ids := fmap (doc_id ∘ fst) <$> rows;
                    qr_documents := fmap (doc_text ∘ fst) <$> rows;
                    qr_distances := fmap snd <$> rows;
                    qr_metadatas := fmap (doc_meta ∘ fst) <$> rows |}, c)
         end.

(** ** [ChromaTool] *)

(** [__init__]: keeps the two names, creates the directory, opens the
    client on it, loads the embedding model and opens the collection;
    the first statement that raises ends the construction.  The store of
    the monad is the one kept under the directory: every construction in
    the program names [./vector_store]. *)
Definition ChromaTool_init (persist_dir collection_name : string)
    : M ChromaTool :=
  _ <- attempt (makedirs setup persist_dir) ;;
  _ <- attempt (persistent_client setup persist_dir) ;;
  _ <- attempt (embedding_function setup "all-MiniLM-L6-v2") ;;
  h <- get_or_create_collection collection_name ;;
  ret (mkChromaTool persist_dir collection_name h).

(** [not ids] on an optional list: [None] and the empty list. *)
Definition py_not {A} (l : option (list A)) : bool :=
  match l with
  | None | Some [] => true
  | Some (_ :: _) => false
  end.

(** [[f"doc_{i}" for i in range(len(documents))]] *)
Definition generated_ids (documents : list string) : list string :=
  (λ i : nat, "doc_" +:+ pretty i) <$> seq 0 (length documents).

(** [[{"source": "unknown"} for _ in documents]] *)
Definition default_metadata (documents : list string) : list Metadata :=
  (λ _, {["source" := "unknown"]}) <$> documents.

Definition add_documents (self : ChromaTool) (documents : list string)
    (ids : option (list string)) (metadata : option (list Metadata))
    : M unit :=
  let ids :=
    if py_not ids then generated_ids documents else default [] ids in
  let metadata :=
    if py_not metadata then default_metadata documents
    else default [] metadata in
  collection_add (collection self) documents ids metadata.

(** [rows[0] if rows else []] *)
Definition first_row {A} (rows : list (list A)) : list A :=
  match rows with
  | [] => []
  | row :: _ => row
  end.

Definition search (self : ChromaTool) (query : string) (n_results : Z)
    : M (gmap string Value) :=
  results <- collection_query (collection self) [query] n_results ;;
  ret ({[ "documents" := VStrs (first_row (qr_documents results));
          "ids" := VStrs (first_row (qr_ids results));
          "distances" := VDists (first_row (qr_distances results));
          "metadatas" := VMetas (first_row (qr_metadatas results)) ]}
       : gmap string Value).

(** [results[key]] where a list of strings is bound. *)
Definition dict_strs (results : gmap string Value) (key : string)
    : M (list string) :=
  match results !! key with
  | Some (VStrs l) => ret l
  | _ => raise KeyError
  end.

(** [results[key]] where a list of metadata dicts is bound. *)
Definition dict_metas (results : gmap string Value) (key : string)
    : M (list Metadata) :=
  match results !! key with
  | Some (VMetas l) => ret l
  | _ => raise KeyError
  end.

Definition no_documents_found : string :=
  "No documents found matching the query.".

(** The body of the [for] loop over
    [enumerate(zip(documents, metadatas), 1)], on the accumulator. *)
Fixpoint format_loop (i : nat) (items : list (string * Metadata))
    (formatted : string) : string :=
  match items with
  | [] => formatted
  | (doc, meta) :: rest =>
      let formatted :=
        formatted +:+ (LF +:+ "[Document " +:+ pretty i +:+ "]" +:+ LF) in
      let formatted :=
        formatted +:+
        (if 500 <? String.length doc
         then "Content: " +:+ str_prefix 500 doc +:+ "..." +:+ LF
         else "Content: " +:+ doc +:+ LF) in
      let formatted :=
        if dict_truthy meta
        then formatted +:+
             ("Source: " +:+ default "Unknown" (meta !! "source") +:+ LF)
        else formatted in
      format_loop (S i) rest formatted
  end.

Definition search_formatted (self : ChromaTool) (query : string)
    (n_results : Z) : M string :=
  results <- search self query n_results ;;
  documents <- dict_strs results "documents" ;;
  if bool_decide (documents = []) then ret no_documents_found
  else
    let formatted := "Retrieved Documents:" +:+ LF in
    let formatted := formatted +:+ (str_repeat "-" 50 +:+ LF) in
    metadatas <- dict_metas results "metadatas" ;;
    ret (format_loop 1 (zip documents metadatas) formatted).

Definition delete_collection (self : ChromaTool) : M unit :=
  client_delete_collection (collection_name self).

Definition get_collection_stats (self : ChromaTool) : M Stats :=
  count <- collection_count (collection self) ;;
  ret (mkStats (collection_name self) count (persist_dir self)).

End Store.

(** The three outside statements of [__init__] go through for a
    directory. *)
Definition setup_ok (setup : Setup) (persist_dir : string) : Prop :=
  makedirs setup persist_dir = None
  ∧ persistent_client setup persist_dir = None
  ∧ embedding_function setup "all-MiniLM-L6-v2" = None.

(** A host on which every directory can be created and opened and the
    model loads, and one that differs in refusing the empty path. *)
Definition working_setup : Setup :=
  mkSetup (λ _, None) (λ _, None) (λ _, None).

Definition strict_setup : Setup :=
  mkSetup
    (λ path, if decide (path = EmptyString) then Some StorageInitError
             else None)
    (λ _, None) (λ _, None).

(** ** The rendered text, block by block *)

(** The excerpt of a document text that [search_formatted] embeds. *)
Definition excerpt (doc : string) : string :=
  if 500 <? String.length doc then str_prefix 500 doc +:+ "..." else doc.

(** The [Source:] line of a result, empty for a falsy metadata dict. *)
Definition source_line (meta : Metadata) : string :=
  if dict_truthy meta
  then "Source: " +:+ default "Unknown" (meta !! "source") +:+ LF
  else EmptyString.

(** The text appended for the result numbered [i]. *)
Definition block (i : nat) (doc : string) (meta : Metadata) : string :=
  (LF +:+ "[Document " +:+ pretty i +:+ "]" +:+ LF)
  +:+ ("Content: " +:+ excerpt doc +:+ LF)
  +:+ source_line meta.

Fixpoint blocks (i : nat) (items : list (string * Metadata)) : string :=
  match items with
  | [] => EmptyString
  | (doc, meta) :: rest => block i doc meta +:+ blocks (S i) rest
  end.

(** The two header lines. *)
Definition header : string :=
  ("Retrieved Documents:" +:+ LF) +:+ (str_repeat "-" 50 +:+ LF).

(** The dict [search] builds from one ranked row. *)
Definition result_dict (row : list (Document * Q)) : gmap string Value :=
  {[ "documents" := VStrs ((doc_text ∘ fst) <$> row);
     "ids" := VStrs ((doc_id ∘ fst) <$> row);
     "distances" := VDists (snd <$> row);
     "metadatas" := VMetas ((doc_meta ∘ fst) <$> row) ]}.

(** Text and metadata of each entry of a ranked row. *)
Definition row_items (row : list (Document * Q)) : list (string * Metadata) :=
  (λ x, (doc_text x.1, doc_meta x.1)) <$> row.

(** A bound on the length of [blocks i items]: for each result the
    fixed text of its three lines and the 503 characters its excerpt can
    take, the digits of its number and the length of its source value. *)
Fixpoint blocks_bound (i : nat) (items : list (string * Metadata)) : nat :=
  match items with
  | [] => 0
  | (_, meta) :: rest =>
      535 + String.length (pretty i)
      + String.length (default "Unknown" (meta !! "source"))
      + blocks_bound (S i) rest
  end.



(** ** The arguments [add_documents] hands to the index *)

(** The local [ids] of [add_documents] once the default is filled in. *)
Definition ids_used (documents : list string) (ids : option (list string))
    : list string :=
  if py_not ids then generated_ids documents else default [] ids.

(** The local [metadata] of [add_documents] once the default is filled in. *)
Definition metadata_used (documents : list string)
    (metadata : option (list Metadata)) : list Metadata :=
  if py_not metadata then default_metadata documents else default [] metadata.

(** ** The sample documents *)

Definition sample_docs : list string :=
  [ "Artificial Intelligence is revolutionizing many industries by enabling machines to learn from data and make intelligent decisions without explicit programming.";
    "The Model Context Protocol (MCP) enables modular tool use for AI agents by providing a standardized way to connect language models to external services.";
    "Vector databases like ChromaDB store embeddings of text, enabling fast semantic similarity search and retrieval of relevant documents.";
    "Retrieval-Augmented Generation (RAG) combines the benefits of retrieval and generation, allowing AI systems to ground their responses in factual, retrieved content.";
    "Ollama provides a simple way to run large language models locally, supporting models like Mistral, Llama, and others without requiring expensive cloud infrastructure." ].

(** [load_sample_documents]: the samples under ids [sample_doc_<i>]. *)
Definition load_sample_documents (policy : DuplicatePolicy)
    (tool : ChromaTool) : M unit :=
  let ids :=
    (λ i : nat, "sample_doc_" +:+ pretty i) <$> seq 0 (length sample_docs) in
  let metadata :=
    (λ _, ({["source" := "sample"; "type" := "general_info"]} : Metadata))
      <$> sample_docs in
  add_documents policy tool sample_docs (Some ids) (Some metadata).

(** A stand-in for the embedding distance, used to run the store on
    concrete inputs: the gap between the lengths of the two texts. *)
Definition length_distance (q d : string) : Q :=
  inject_Z (Z.abs (Z.of_nat (String.length q) - Z.of_nat (String.length d))).

(** The tool and store of the module's [__main__] block: the default
    collection, opened on an empty client, then loaded. *)
Definition sample_tool : ChromaTool :=
  mkChromaTool "./vector_store" "documents" "documents".

Definition empty_store : Client :=
  (ChromaTool_init working_setup "./vector_store" "documents" ∅).2.

Definition sample_store : Client :=
  (load_sample_documents Overwrite sample_tool empty_store).2.

(** The dict the two nearest samples to a question are returned in. *)
Definition sample_result : gmap string Value :=
  result_dict (rank length_distance "What is MCP?" 2
                 (default [] (sample_store !! "documents"))).




(** ** Whitespace stripping *)

(** [c.isspace()] for a character with a code point below 256. *)
Definition py_isspace (a : Ascii.ascii) : bool :=
  let n := Ascii.nat_of_ascii a in
  ((9 <=? n) && (n <=? 13)) || ((28 <=? n) && (n <=? 32))
  || (n =? 133) || (n =? 160).

(** [s.lstrip()] *)
Fixpoint py_lstrip (s : string) : string :=
  match s with
  | EmptyString => EmptyString
  | String a s' => if py_isspace a then py_lstrip s' else s
  end.

(** [s.rstrip()] *)
Fixpoint py_rstrip (s : string) : string :=
  match s with
  | EmptyString => EmptyString
  | String a s' =>
      match py_rstrip s' with
      | EmptyString => if py_isspace a then EmptyString else String a EmptyString
      | r => String a r
      end
  end.

(** [s.strip()] *)
Definition py_strip (s : string) : string := py_rstrip (py_lstrip s).

(** * The agent: [rag_agent.py] *)

Module Agent.

(** The attributes assigned by [RAGAgent.__init__]. *)
Record RAGAgent := mkRAGAgent {
  ollama_url : string;
  model : string;
  max_tokens : Z;
  temperature : Q;
  vector_store : ChromaTool
}.

(** The JSON body posted to [/api/generate]. *)
Record Payload := mkPayload {
  payload_model : string;
  payload_prompt : string;
  payload_stream : bool;
  payload_temperature : Q;
  payload_num_predict : Z
}.

(** A value bound in the JSON object of a reply: a string, or a value of
    another Python type, known by the name of that type. *)
Inductive JsonValue :=
  | JString (s : string)
  | JOther (type_name : string).

(** How the exchange with the language-model server ends inside the
    [try] block of [_call_ollama]: with a
    [requests.exceptions.ConnectionError], with any other exception
    (its message is kept), or with a reply whose body is a JSON object. *)
Inductive HttpOutcome :=
  | ConnectionError
  | OtherError (message : string)
  | JsonObject (fields : gmap string JsonValue).

(** The dict [get_response] returns. *)
Record Response := mkResponse {
  response_query : string;
  response_text : string;
  retrieved_documents : list string;
  context_used : bool;
  response_model : string
}.

Section Agent.

Variable setup : Setup.
Variable distance : string → string → Q.

(** The language-model server, which is external: what
    [requests.post(url, json=payload, timeout=120)], followed by
    [raise_for_status] and [json], comes to for a url and a payload. *)
Variable post : string → Payload → HttpOutcome.

(** [RAGAgent.__init__]: the tool is opened with the default collection
    name of [ChromaTool]. *)
Definition RAGAgent_init (ollama_url model vector_store_path : string)
    (max_tokens : Z) (temperature : Q) : M RAGAgent :=
  tool <- ChromaTool_init setup vector_store_path "documents" ;;
  ret (mkRAGAgent ollama_url model max_tokens temperature tool).

Definition _call_ollama (self : RAGAgent) (prompt : string) : string :=
  let url := ollama_url self +:+ "/api/generate" in
  let payload :=
    mkPayload (model self) prompt false (temperature self) (max_tokens self) in
  match post url payload with
  | JsonObject result =>
      match default (JString EmptyString) (result !! "response") with
      | JString text => py_strip text
      | JOther type_name =>
          "Error calling Ollama: " +:+
          ("'" +:+ type_name +:+ "' object has no attribute 'strip'")
      end
  | ConnectionError =>
      "Error: Unable to connect to Ollama server. Make sure it's running."
  | OtherError message => "Error calling Ollama: " +:+ message
  end.

Definition retrieve_context (self : RAGAgent) (query : string)
    (n_results : Z) : M string :=
  search_formatted distance (vector_store self) query n_results.

Definition build_prompt (query context : string) : string :=
  "You are a helpful AI assistant. Use the provided context to answer the user's question accurately and concisely."
  +:+ LF +:+ LF
  +:+ "Context Information:" +:+ LF
  +:+ context +:+ LF +:+ LF
  +:+ "User Question: " +:+ query +:+ LF +:+ LF
  +:+ "Please provide a clear and informative answer based on the context provided. If the context doesn't contain relevant information, say so and provide your best response based on your knowledge.".

Definition get_response (self : RAGAgent) (query : string)
    (use_context : bool) (n_results : Z) : M Response :=
  found <-
    (if use_context
     then
       search_results <- search distance (vector_store self) query n_results ;;
       retrieved_docs <- dict_strs search_results "documents" ;;
       context <-
         search_formatted distance (vector_store self) query n_results ;;
       ret (context, retrieved_docs)
     else ret (EmptyString, [])) ;;
  let context := found.1 in
  let retrieved_docs := found.2 in
  let prompt := if use_context then build_prompt query context else query in
  let response := _call_ollama self prompt in
  ret (mkResponse query response retrieved_docs use_context (model self)).

(** [get_rag_response]: a fresh agent with the default settings. *)
Definition get_rag_response (query ollama_url : string) : M Response :=
  agent <- RAGAgent_init ollama_url "mistral" "./vector_store" 1024 (7 # 10) ;;
  get_response agent query true 3.

End Agent.

End Agent.

(** * The HTTP layer: [main.py] *)

Module Api.

(** The two module-level globals, [None] until the startup event. *)
Record Server := mkServer {
  agent : option Agent.RAGAgent;
  vector_store : option ChromaTool
}.

Record QueryRequest := mkQueryRequest {
  query_text : string;
  use_context : bool;
  query_n_results : Z
}.

Record DocumentsRequest := mkDocumentsRequest {
  documents : list string;
  ids : option (list string);
  metadata : option (list Metadata)
}.

Record SearchRequest := mkSearchRequest {
  search_text : string;
  search_n_results : Z
}.

(** The [detail] of an [HTTPException]: a fixed text, or [str(e)] of the
    exception a handler caught. *)
Inductive Detail :=
  | Text (s : string)
  | ExceptionText (e : Error).

(** What a handler hands back to the framework: the body of a 200
    reply, or an [HTTPException] with its status code. *)
Inductive Reply (A : Type) :=
  | Http200 (body : A)
  | HTTPException (status_code : Z) (detail : Detail).
Arguments Http200 {A} body.
Arguments HTTPException {A} status_code detail.

Record HealthBody := mkHealthBody {
  health_status : string;
  vector_store_documents : nat
}.

Record SearchBody := mkSearchBody {
  body_query : string;
  body_results : gmap string Value;
  body_count : nat
}.

Record AddBody := mkAddBody {
  add_status : string;
  documents_added : nat;
  total_documents : nat
}.

Record AgentConfig := mkAgentConfig {
  config_model : string;
  config_ollama_url : string;
  config_max_tokens : Z;
  config_temperature : Q
}.

Record StatsBody := mkStatsBody {
  body_vector_store : Stats;
  body_agent_config : AgentConfig
}.

Record ClearBody := mkClearBody {
  clear_status : string;
  clear_message : string
}.

(** [try: ... except Exception as e: raise HTTPException(500, str(e))] *)
Definition try_except {A} (body : M (Reply A)) : M (Reply A) :=
  λ c, match body c with
       | (Ok reply, c') => (Ok reply, c')
       | (Err e, c') => (Ok (HTTPException 500 (ExceptionText e)), c')
       end.

Section Api.

Variable setup : Setup.
Variable distance : string → string → Q.
Variable duplicate_policy : DuplicatePolicy.
Variable post : string → Agent.Payload → Agent.HttpOutcome.

Definition startup_event : M Server :=
  vector_store <- ChromaTool_init setup "./vector_store" "documents" ;;
  agent <-
    Agent.RAGAgent_init setup "http://localhost:11434" "mistral"
      "./vector_store" 1024 (7 # 10) ;;
  stats <- get_collection_stats vector_store ;;
  _ <- (if document_count stats =? 0
        then load_sample_documents duplicate_policy vector_store
        else ret ()) ;;
  ret (mkServer (Some agent) (Some vector_store)).

Definition health_check (server : Server) : M (Reply HealthBody) :=
  match agent server, vector_store server with
  | Some _, Some vector_store =>
      stats <- get_collection_stats vector_store ;;
      ret (Http200 (mkHealthBody "healthy" (document_count stats)))
  | _, _ => ret (HTTPException 503 (Text "Service not initialized"))
  end.

Definition query_agent (server : Server) (request : QueryRequest)
    : M (Reply Agent.Response) :=
  match agent server with
  | None => ret (HTTPException 503 (Text "Agent not initialized"))
  | Some agent =>
      try_except
        (result <-
           Agent.get_response distance post agent (query_text request)
             (use_context request) (query_n_results request) ;;
         ret (Http200 result))
  end.

Definition search_documents (server : Server) (request : SearchRequest)
    : M (Reply SearchBody) :=
  match vector_store server with
  | None => ret (HTTPException 503 (Text "Vector store not initialized"))
  | Some vector_store =>
      try_except
        (results <-
           search distance vector_store (search_text request)
             (search_n_results request) ;;
         found <- dict_strs results "documents" ;;
         ret (Http200
                (mkSearchBody (search_text request) results (length found))))
  end.

Definition add_documents (server : Server) (request : DocumentsRequest)
    : M (Reply AddBody) :=
  match vector_store server with
  | None => ret (HTTPException 503 (Text "Vector store not initialized"))
  | Some vector_store =>
      try_except
        (_ <- add_documents duplicate_policy vector_store
                (documents request) (ids request) (metadata request) ;;
         stats <- get_collection_stats vector_store ;;
         ret (Http200
                (mkAddBody "success" (length (documents request))
                   (document_count stats))))
  end.

Definition get_stats (server : Server) : M (Reply StatsBody) :=
  match vector_store server with
  | None => ret (HTTPException 503 (Text "Vector store not initialized"))
  | Some vector_store =>
      try_except
        (stats <- get_collection_stats vector_store ;;
         ret (Http200
                (mkStatsBody stats
                   (match agent server with
                    | Some agent =>
                        mkAgentConfig (Agent.model agent)
                          (Agent.ollama_url agent) (Agent.max_tokens agent)
                          (Agent.temperature agent)
                    | None => mkAgentConfig "unknown" "unknown" 0 0
                    end))))
  end.

Definition clear_documents (server : Server) : M (Reply ClearBody) :=
  match vector_store server with
  | None => ret (HTTPException 503 (Text "Vector store not initialized"))
  | Some vector_store =>
      try_except
        (_ <- delete_collection vector_store ;;
         ret (Http200 (mkClearBody "success" "All documents cleared")))
  end.

End Api.

End Api.

(** * The quick start script: [quickstart.py] *)

Module Quickstart.

(** What a run shows: the values its report lines are formatted from,
    or the exception its [except] clause reports. *)
Inductive Shown (A : Type) :=
  | Report (a : A)
  | ErrorReport (e : Error).
Arguments Report {A} a.
Arguments ErrorReport {A} e.

(** [try: ... except Exception as e: print(...)] *)
Definition try_print {A} (body : M A) : M (Shown A) :=
  λ c, match body c with
       | (Ok a, c') => (Ok (Report a), c')
       | (Err e, c') => (Ok (ErrorReport e), c')
       end.

Section Quickstart.

Variable setup : Setup.
Variable distance : string → string → Q.
Variable duplicate_policy : DuplicatePolicy.

(** [test_vector_store]: the stats dict whose three entries are
    printed, and the number of documents the search line reports. *)
Definition test_vector_store : M (Shown (Stats * nat)) :=
  try_print
    (tool <- ChromaTool_init setup "./vector_store" "documents" ;;
     stats <- get_collection_stats tool ;;
     _ <- (if document_count stats =? 0
           then load_sample_documents duplicate_policy tool
           else ret ()) ;;
     results <- search distance tool "What is AI?" 2 ;;
     found <- dict_strs results "documents" ;;
     ret (stats, length found)).

(** [load_documents]: the document count its last line reports. *)
Definition load_documents : M (Shown nat) :=
  try_print
    (tool <- ChromaTool_init setup "./vector_store" "documents" ;;
     _ <- load_sample_documents duplicate_policy tool ;;
     stats <- get_collection_stats tool ;;
     ret (document_count stats)).

End Quickstart.

End Quickstart.

(** * Values used to state and to run the properties below *)

(** The documents [load_sample_documents] hands to the index. *)
Definition sample_documents : list Document :=
  new_documents sample_docs
    ((λ i : nat, "sample_doc_" +:+ pretty i) <$> seq 0 (length sample_docs))
    ((λ _, ({["source" := "sample"; "type" := "general_info"]} : Metadata))
       <$> sample_docs).

(** [d] is the document a collection holds under its id: the first of
    the list with that id. *)
Definition stored_first (d : Document) (l : list Document) : Prop :=
  ∃ l1 l2, l = l1 ++ d :: l2 ∧ doc_id d ∉ doc_id <$> l1.

(** The agent and the globals the startup event builds. *)
Definition default_agent : Agent.RAGAgent :=
  Agent.mkRAGAgent "http://localhost:11434" "mistral" 1024 (7 # 10) sample_tool.

Definition started_server : Api.Server :=
  Api.mkServer (Some default_agent) (Some sample_tool).

(** A language-model server that answers with the prompt it was sent,
    between blanks, and one that cannot be reached. *)
Definition echo_post (url : string) (payload : Agent.Payload)
    : Agent.HttpOutcome :=
  Agent.JsonObject
    {[ "response" :=
         Agent.JString ("  " +:+ Agent.payload_prompt payload +:+ LF) ]}.

Definition unreachable_post (url : string) (payload : Agent.Payload)
    : Agent.HttpOutcome :=
  Agent.ConnectionError.

(** The request of [test_document_operations] in [test_utils.py], and
    the sample store once it has been served. *)
Definition test_request : Api.DocumentsRequest :=
  Api.mkDocumentsRequest ["Test document for validation"]
    (Some ["test_doc"]) (Some [{["source" := "test"]}]).

Definition tested_store : Client :=
  (add_documents Overwrite sample_tool (Api.documents test_request)
     (Api.ids test_request) (Api.metadata test_request) sample_store).2.

(** The sample store once its collection has been deleted. *)
Definition cleared_store : Client :=
  (delete_collection sample_tool sample_store).2.

(** * Properties *)

(** ** Strings *)

Lemma str_app_cons a s1 s2 : String a s1 +:+ s2 = String a (s1 +:+ s2).
Proof. reflexivity. Qed.

Lemma str_length_app s1 s2 :
  String.length (s1 +:+ s2) = String.length s1 + String.length s2.
Proof.
  induction s1 as [|a s1 IH]; [done |].
  rewrite str_app_cons. simpl. by rewrite IH.
Qed.

Lemma str_app_assoc s1 s2 s3 : (s1 +:+ s2) +:+ s3 = s1 +:+ (s2 +:+ s3).
Proof.
  induction s1 as [|a s1 IH]; [done |].
  rewrite !str_app_cons. by rewrite IH.
Qed.

Lemma str_app_nil_r s : s +:+ EmptyString = s.
Proof.
  induction s as [|a s IH]; [done |]. rewrite str_app_cons. by rewrite IH.
Qed.

Lemma str_length_prefix n s :
  String.length (str_prefix n s) = n `min` String.length s.
Proof.
  revert s. induction n as [|n IH]; intros [|a s]; simpl; try done.
  by rewrite IH.
Qed.


(** ** The formatting loop *)

Lemma format_loop_blocks i items formatted :
  format_loop i items formatted = formatted +:+ blocks i items.
Proof.
  revert i formatted.
  induction items as [|[doc meta] rest IH]; intros i formatted.
  - cbn [format_loop blocks]. by rewrite str_app_nil_r.
  - cbn [format_loop blocks]. rewrite IH.
    unfold block, source_line, excerpt.
    destruct (500 <? String.length doc), (dict_truthy meta);
      rewrite ?str_app_assoc, ?str_app_nil_r; reflexivity.
Qed.

Lemma zip_row_items (row : list (Document * Q)) :
  zip ((doc_text ∘ fst) <$> row) ((doc_meta ∘ fst) <$> row) = row_items row.
Proof.
  unfold row_items. induction row as [|x row IH]; [done |].
  rewrite !fmap_cons. cbn [zip_with]. by rewrite IH.
Qed.

(** ** Running the methods on a live collection *)

Lemma search_run distance self q n (c : Client) ds :
  c !! collection self = Some ds → (1 ≤ n)%Z →
  search distance self q n c
  = (Ok (result_dict (rank distance q (Z.to_nat n) ds)), c).
Proof.
  intros Hc Hn. unfold search, bind, collection_query.
  destruct (decide (n < 1)%Z) as [?|_]; [lia |].
  rewrite Hc. reflexivity.
Qed.

Lemma search_formatted_run distance self q n (c : Client) ds :
  c !! collection self = Some ds → (1 ≤ n)%Z →
  search_formatted distance self q n c
  = (Ok (let row := rank distance q (Z.to_nat n) ds in
         if bool_decide (row = []) then no_documents_found
         else header +:+ blocks 1 (row_items row)), c).
Proof.
  intros Hc Hn. unfold search_formatted, bind.
  rewrite (search_run _ _ _ _ _ ds) by done.
  unfold result_dict, dict_strs, dict_metas.
  rewrite lookup_insert_eq. unfold ret at 1.
  destruct (rank distance q (Z.to_nat n) ds) as [|x row] eqn:Hrow.
  - reflexivity.
  - rewrite bool_decide_eq_false_2 by done.
    rewrite !lookup_insert_ne by done. rewrite lookup_singleton_eq.
    unfold ret. rewrite zip_row_items, format_loop_blocks.
    rewrite bool_decide_eq_false_2 by done. reflexivity.
Qed.


(** ** Reading back what a successful call did *)

Lemma stats_inv self (c c' : Client) stats :
  get_collection_stats self c = (Ok stats, c') →
  ∃ ds, c !! collection self = Some ds
        ∧ stats = mkStats (collection_name self) (length ds) (persist_dir self)
        ∧ c' = c.
Proof.
  unfold get_collection_stats, bind, collection_count, ret.
  destruct (c !! collection self) as [ds|]; [| discriminate].
  intros [= <- <-]. by exists ds.
Qed.

Lemma stats_run self (c : Client) ds :
  c !! collection self = Some ds →
  get_collection_stats self c
  = (Ok (mkStats (collection_name self) (length ds) (persist_dir self)), c).
Proof.
  intros Hc. unfold get_collection_stats, bind, collection_count.
  by rewrite Hc.
Qed.

Lemma search_inv distance self q n (c c' : Client) r :
  search distance self q n c = (Ok r, c') →
  (1 ≤ n)%Z
  ∧ ∃ ds, c !! collection self = Some ds
          ∧ r = result_dict (rank distance q (Z.to_nat n) ds)
          ∧ c' = c.
Proof.
  unfold search, bind, collection_query.
  destruct (decide (n < 1)%Z) as [|Hn]; [discriminate |].
  destruct (c !! collection self) as [ds|]; [| discriminate].
  intros [= <- <-]. split; [lia |]. by exists ds.
Qed.

Lemma rank_length distance q n ds :
  length (rank distance q n ds) = n `min` length ds.
Proof.
  unfold rank. rewrite length_take.
  by rewrite merge_sort_Permutation, length_fmap.
Qed.

Lemma take_StronglySorted {A} (R : relation A) n l :
  StronglySorted R l → StronglySorted R (take n l).
Proof.
  intros Hl. revert n. induction Hl as [|x l Hl IH Hx]; intros [|n]; simpl;
    try constructor; auto.
  by apply Forall_take.
Qed.

Lemma StronglySorted_weaken {A} (R1 R2 : relation A) l :
  (∀ x y, R1 x y → R2 x y) → StronglySorted R1 l → StronglySorted R2 l.
Proof.
  intros Himp. induction 1 as [|x l Hl IH Hx]; constructor; [done |].
  eapply Forall_impl; [exact Hx | apply Himp].
Qed.

(** A ranked row lists its hits by non-decreasing distance. *)
Lemma rank_sorted distance q n ds :
  StronglySorted (λ x y : Document * Q, (x.2 <= y.2)%Q)
    (rank distance q n ds).
Proof.
  unfold rank. apply take_StronglySorted.
  set (R := λ x y : Document * Q, Is_true (Qle_bool x.2 y.2)).
  assert (Transitive R) as Htrans.
  { intros x y z Hxy Hyz. apply Is_true_true, Qle_bool_iff.
    apply Is_true_true, Qle_bool_iff in Hxy.
    apply Is_true_true, Qle_bool_iff in Hyz. by eapply Qle_trans. }
  assert (Total R) as Htotal.
  { intros x y. destruct (Qlt_le_dec x.2 y.2) as [Hlt|Hle].
    - left. apply Is_true_true, Qle_bool_iff. by apply Qlt_le_weak.
    - right. by apply Is_true_true, Qle_bool_iff. }
  apply (StronglySorted_weaken R); [| by apply StronglySorted_merge_sort].
  intros x y Hxy. by apply Qle_bool_iff, Is_true_true.
Qed.

(** Each hit of a ranked row is a stored document, with its distance
    to the query. *)
Lemma rank_entry distance q n ds d x :
  (d, x) ∈ rank distance q n ds → d ∈ ds ∧ x = distance q (doc_text d).
Proof.
  unfold rank. intros Hin. apply subseteq_take in Hin.
  rewrite merge_sort_Permutation in Hin.
  by apply list_elem_of_fmap in Hin as (d' & [= -> ->] & Hin).
Qed.

(** ** Search *)

(** C2.  On a store whose collection is live, so that [stats] reports a
    document count, for every query and every [n_results >= 1] the search
    succeeds and leaves the store as it is, the [documents] list it
    returns has at most [min(n_results, document_count)] entries, also
    when [n_results] exceeds the count, and on an empty collection all
    four lists are empty. *)
Theorem search_length_bound distance self q n (c : Client) stats :
  get_collection_stats self c = (Ok stats, c) → (1 ≤ n)%Z →
  ∃ docs ids dists metas,
    search distance self q n c
    = (Ok ({[ "documents" := VStrs docs; "ids" := VStrs ids;
              "distances" := VDists dists; "metadatas" := VMetas metas ]}
           : gmap string Value), c)
    ∧ length docs ≤ Z.to_nat n `min` document_count stats
    ∧ (document_count stats = 0 →
       docs = [] ∧ ids = [] ∧ dists = [] ∧ metas = []).
Proof.
  intros Hstats Hn.
  destruct (stats_inv _ _ _ _ Hstats) as (ds & Hc & -> & _). simpl.
  set (row := rank distance q (Z.to_nat n) ds).
  exists ((doc_text ∘ fst) <$> row), ((doc_id ∘ fst) <$> row),
    (snd <$> row), ((doc_meta ∘ fst) <$> row).
  split; [by apply search_run |].
  split.
  - rewrite length_fmap. unfold row. by rewrite rank_length.
  - intros Hlen. assert (row = []) as ->; [| done].
    apply length_zero_iff_nil. unfold row. rewrite rank_length. lia.
Qed.

Lemma search_length_bound_witness :
  get_collection_stats sample_tool sample_store
  = (Ok (mkStats "documents" 5 "./vector_store"), sample_store)
  ∧ (1 ≤ 8)%Z
  ∧ ∃ docs ids dists metas,
      search length_distance sample_tool "What is MCP?" 8 sample_store
      = (Ok ({[ "documents" := VStrs docs; "ids" := VStrs ids;
                "distances" := VDists dists; "metadatas" := VMetas metas ]}
             : gmap string Value), sample_store)
      ∧ length docs ≤ Z.to_nat 8 `min` 5
      ∧ (5 = 0 → docs = [] ∧ ids = [] ∧ dists = [] ∧ metas = []).
Proof.
  split; [vm_compute; reflexivity |]. split; [lia |].
  apply (search_length_bound length_distance sample_tool "What is MCP?" 8
           sample_store (mkStats "documents" 5 "./vector_store")).
  - vm_compute; reflexivity.
  - lia.
Defined.

(** C10.  Whatever the query and [n_results], the dict a successful
    [search] returns has exactly the keys [documents], [ids], [distances]
    and [metadatas], each bound to a list, and the four lists have the
    same length.  They are the four projections of one ranked row of the
    collection, nearest first: entry [i] of each list describes the same
    hit, a document the collection holds, by its text, its id, its
    distance to the query and its metadata. *)
Theorem search_result_shape distance self q n (c c' : Client) r :
  search distance self q n c = (Ok r, c') →
  dom r = ({[ "documents"; "ids"; "distances"; "metadatas" ]} : gset string)
  ∧ ∃ docs ids dists metas,
      r !! "documents" = Some (VStrs docs)
      ∧ r !! "ids" = Some (VStrs ids)
      ∧ r !! "distances" = Some (VDists dists)
      ∧ r !! "metadatas" = Some (VMetas metas)
      ∧ length ids = length docs
      ∧ length dists = length docs
      ∧ length metas = length docs
      ∧ ∃ (ds : list Document) (row : list (Document * Q)),
          c !! collection self = Some ds
          ∧ row = rank distance q (Z.to_nat n) ds
          ∧ StronglySorted (λ x y : Document * Q, (x.2 <= y.2)%Q) row
          ∧ docs = (doc_text ∘ fst) <$> row
          ∧ ids = (doc_id ∘ fst) <$> row
          ∧ dists = snd <$> row
          ∧ metas = (doc_meta ∘ fst) <$> row
          ∧ ∀ i, i < length docs →
              ∃ d, d ∈ ds
                   ∧ row !! i = Some (d, distance q (doc_text d))
                   ∧ docs !! i = Some (doc_text d)
                   ∧ ids !! i = Some (doc_id d)
                   ∧ dists !! i = Some (distance q (doc_text d))
                   ∧ metas !! i = Some (doc_meta d).
Proof.
  intros Hsearch.
  destruct (search_inv _ _ _ _ _ _ _ Hsearch) as (_ & ds & Hc & -> & _).
  set (row := rank distance q (Z.to_nat n) ds). unfold result_dict.
  split.
  - rewrite !dom_insert_L, dom_singleton_L. set_solver.
  - exists ((doc_text ∘ fst) <$> row), ((doc_id ∘ fst) <$> row),
      (snd <$> row), ((doc_meta ∘ fst) <$> row).
    rewrite !length_fmap.
    split_and!; [by simplify_map_eq.. | done | done | done |].
    exists ds, row.
    split_and!; [done | done | apply rank_sorted | done | done | done | done |].
    intros i Hi. destruct (lookup_lt_is_Some_2 row i Hi) as [[d x] Hrow].
    destruct (rank_entry distance q (Z.to_nat n) ds d x) as [Hd ->];
      [by eapply list_elem_of_lookup_2 |].
    exists d. rewrite !list_lookup_fmap, Hrow. by split_and!.
Qed.

(** C3.  When the underlying search yields zero documents,
    [search_formatted] returns, as a success value and not as an error,
    exactly the fixed sentinel sentence. *)
Theorem search_formatted_no_results distance self q n (c c' : Client) r :
  search distance self q n c = (Ok r, c') →
  r !! "documents" = Some (VStrs []) →
  search_formatted distance self q n c
  = (Ok "No documents found matching the query.", c').
Proof.
  intros Hsearch Hdocs. unfold search_formatted, bind.
  rewrite Hsearch. unfold dict_strs. rewrite Hdocs. reflexivity.
Qed.

Lemma search_result_shape_witness :
  search length_distance sample_tool "What is MCP?" 2 sample_store
  = (Ok sample_result, sample_store)
  ∧ dom sample_result
    = ({[ "documents"; "ids"; "distances"; "metadatas" ]} : gset string)
  ∧ ∃ docs ids dists metas,
      sample_result !! "documents" = Some (VStrs docs)
      ∧ sample_result !! "ids" = Some (VStrs ids)
      ∧ sample_result !! "distances" = Some (VDists dists)
      ∧ sample_result !! "metadatas" = Some (VMetas metas)
      ∧ length ids = length docs
      ∧ length dists = length docs
      ∧ length metas = length docs
      ∧ ∃ (ds : list Document) (row : list (Document * Q)),
          sample_store !! collection sample_tool = Some ds
          ∧ row = rank length_distance "What is MCP?" (Z.to_nat 2) ds
          ∧ StronglySorted (λ x y : Document * Q, (x.2 <= y.2)%Q) row
          ∧ docs = (doc_text ∘ fst) <$> row
          ∧ ids = (doc_id ∘ fst) <$> row
          ∧ dists = snd <$> row
          ∧ metas = (doc_meta ∘ fst) <$> row
          ∧ ∀ i, i < length docs →
              ∃ d, d ∈ ds
                   ∧ row !! i
                     = Some (d, length_distance "What is MCP?" (doc_text d))
                   ∧ docs !! i = Some (doc_text d)
                   ∧ ids !! i = Some (doc_id d)
                   ∧ dists !! i
                     = Some (length_distance "What is MCP?" (doc_text d))
                   ∧ metas !! i = Some (doc_meta d).
Proof.
  split; [vm_compute; reflexivity |].
  apply (search_result_shape length_distance sample_tool "What is MCP?" 2
           sample_store sample_store sample_result).
  vm_compute; reflexivity.
Defined.

Lemma search_formatted_no_results_witness :
  search length_distance sample_tool "What is MCP?" 3 empty_store
  = (Ok (result_dict []), empty_store)
  ∧ result_dict [] !! "documents" = Some (VStrs [])
  ∧ search_formatted length_distance sample_tool "What is MCP?" 3 empty_store
    = (Ok "No documents found matching the query.", empty_store).
Proof.
  split; [vm_compute; reflexivity |]. split; [vm_compute; reflexivity |].
  apply (search_formatted_no_results length_distance sample_tool
           "What is MCP?" 3 empty_store empty_store (result_dict [])).
  - vm_compute; reflexivity.
  - vm_compute; reflexivity.
Defined.

(** ** Adding documents *)

Lemma add_documents_unfold policy self docs ids meta :
  add_documents policy self docs ids meta
  = collection_add policy (collection self) docs
      (ids_used docs ids) (metadata_used docs meta).
Proof. reflexivity. Qed.

Lemma new_documents_ids docs ids metas :
  length ids = length docs → length metas = length docs →
  doc_id <$> new_documents docs ids metas = ids.
Proof.
  unfold new_documents. revert docs metas.
  induction ids as [|i ids IH]; intros [|d docs] [|m metas] Hi Hm;
    simplify_eq/=; [done |].
  f_equal. by apply IH.
Qed.

Lemma new_documents_length docs ids metas :
  length ids = length docs → length metas = length docs →
  length (new_documents docs ids metas) = length docs.
Proof.
  intros Hi Hm. rewrite <-(length_fmap doc_id).
  by rewrite new_documents_ids.
Qed.

Lemma upsert_fresh d ds :
  doc_id d ∉ doc_id <$> ds → upsert d ds = ds ++ [d].
Proof.
  induction ds as [|d' ds IH]; intros Hfresh; [done |].
  rewrite fmap_cons in Hfresh. apply not_elem_of_cons in Hfresh as [Hne Hds].
  simpl. destruct (decide (doc_id d' = doc_id d)); [congruence |].
  by rewrite IH.
Qed.

Lemma foldl_upsert_fresh new ds :
  NoDup (doc_id <$> new) →
  Forall (λ i, i ∉ doc_id <$> ds) (doc_id <$> new) →
  foldl (λ acc d, upsert d acc) ds new = ds ++ new.
Proof.
  revert ds. induction new as [|d new IH]; intros ds Hnd Hfresh.
  - by rewrite app_nil_r.
  - rewrite fmap_cons in Hnd, Hfresh.
    apply NoDup_cons in Hnd as [Hd Hnd].
    apply Forall_cons in Hfresh as [Hfd Hfresh].
    simpl. rewrite upsert_fresh by done. rewrite IH.
    + by rewrite <-app_assoc.
    + done.
    + apply Forall_forall. intros i Hin.
      rewrite Forall_forall in Hfresh. rewrite fmap_app.
      intros [Hds|Hd']%elem_of_app; [by apply (Hfresh i) |].
      apply list_elem_of_singleton in Hd'. by subst i.
Qed.

Lemma add_documents_inv policy self docs ids meta (c c' : Client) :
  add_documents policy self docs ids meta c = (Ok (), c') →
  docs ≠ []
  ∧ length (ids_used docs ids) = length docs
  ∧ length (metadata_used docs meta) = length docs
  ∧ ∃ ds, c !! collection self = Some ds
          ∧ c' = <[collection self :=
                     match policy with
                     | Reject =>
                         ds ++ new_documents docs (ids_used docs ids)
                                 (metadata_used docs meta)
                     | Overwrite =>
                         foldl (λ acc d, upsert d acc) ds
                           (new_documents docs (ids_used docs ids)
                              (metadata_used docs meta))
                     end]> c.
Proof.
  rewrite add_documents_unfold. unfold collection_add.
  destruct (decide _) as [|Hvalid]; [discriminate |].
  assert (docs ≠ []) as Hdocs by tauto.
  assert (length (ids_used docs ids) = length docs) as Hids
    by (destruct (decide (length (ids_used docs ids) = length docs)); tauto).
  assert (length (metadata_used docs meta) = length docs) as Hmetas
    by (destruct (decide (length (metadata_used docs meta) = length docs));
        tauto).
  destruct (c !! collection self) as [ds|]; [| discriminate].
  intros Hadd. split_and!; [done.. |]. exists ds. split; [done |].
  destruct policy; [destruct (decide _); [| discriminate] |];
    by injection Hadd as <-.
Qed.

(** C1.  When a non-empty list of documents is added under fresh ids
    (distinct from one another and from every id the collection holds) and
    the call completes, the count reported by [stats] has grown by exactly
    [len(documents)].  The count is never kept by the tool: on every
    store it is the number of documents the collection holds there. *)
Theorem add_documents_count policy self docs ids meta (c c' : Client) ds :
  docs ≠ [] →
  c !! collection self = Some ds →
  NoDup (ids_used docs ids) →
  Forall (λ i, i ∉ doc_id <$> ds) (ids_used docs ids) →
  add_documents policy self docs ids meta c = (Ok (), c') →
  (∃ before after,
     get_collection_stats self c = (Ok before, c)
     ∧ get_collection_stats self c' = (Ok after, c')
     ∧ document_count after = document_count before + length docs)
  ∧ (∀ (c'' : Client) ds'',
       c'' !! collection self = Some ds'' →
       ∃ stats, get_collection_stats self c'' = (Ok stats, c'')
                ∧ document_count stats = length ds'').
Proof.
  intros _ Hc Hnd Hfresh Hadd. split.
  - destruct (add_documents_inv _ _ _ _ _ _ _ Hadd)
      as (_ & Hids & Hmetas & ds0 & Hc0 & Hc').
    rewrite Hc in Hc0. injection Hc0 as <-.
    set (new := new_documents docs (ids_used docs ids)
                  (metadata_used docs meta)) in *.
    assert (c' !! collection self = Some (ds ++ new)) as Hlook.
    { rewrite Hc', lookup_insert_eq. f_equal. destruct policy; [done |].
      apply foldl_upsert_fresh; unfold new;
        by rewrite new_documents_ids. }
    eexists _, _. split; [by apply stats_run |].
    split; [by apply stats_run |].
    simpl. rewrite length_app. unfold new.
    by rewrite new_documents_length.
  - intros c'' ds'' Hc''. eexists. split; [by apply stats_run | done].
Qed.

Lemma add_documents_count_witness :
  sample_docs ≠ []
  ∧ empty_store !! collection sample_tool = Some []
  ∧ NoDup (ids_used sample_docs None)
  ∧ Forall (λ i, i ∉ doc_id <$> []) (ids_used sample_docs None)
  ∧ add_documents Reject sample_tool sample_docs None None empty_store
    = (Ok (), (add_documents Reject sample_tool sample_docs None None
                 empty_store).2)
  ∧ ∃ before after,
      get_collection_stats sample_tool empty_store = (Ok before, empty_store)
      ∧ get_collection_stats sample_tool
          (add_documents Reject sample_tool sample_docs None None
             empty_store).2
        = (Ok after, (add_documents Reject sample_tool sample_docs None None
                        empty_store).2)
      ∧ document_count after = document_count before + length sample_docs.
Proof.
  assert (sample_docs ≠ []) as H1 by done.
  assert (empty_store !! collection sample_tool = Some []) as H2
    by (vm_compute; reflexivity).
  assert (NoDup (ids_used sample_docs None)) as H3
    by (apply (bool_decide_unpack _); vm_compute; exact I).
  assert (Forall (λ i, i ∉ doc_id <$> []) (ids_used sample_docs None)) as H4
    by (apply (bool_decide_unpack _); vm_compute; exact I).
  assert (add_documents Reject sample_tool sample_docs None None empty_store
          = (Ok (), (add_documents Reject sample_tool sample_docs None None
                       empty_store).2)) as H5
    by (vm_compute; reflexivity).
  split_and!; [done.. |].
  exact (proj1 (add_documents_count Reject sample_tool sample_docs None None
                  empty_store _ [] H1 H2 H3 H4 H5)).
Defined.

Lemma generated_ids_NoDup docs : NoDup (generated_ids docs).
Proof.
  unfold generated_ids. apply NoDup_fmap_2_strong; [| apply NoDup_seq].
  intros i j _ _ Heq. apply (inj (String.app "doc_")) in Heq.
  by apply (inj pretty) in Heq.
Qed.

Lemma generated_ids_lookup docs i :
  i < length docs → generated_ids docs !! i = Some ("doc_" +:+ pretty i).
Proof.
  intros Hi. unfold generated_ids.
  by rewrite list_lookup_fmap, lookup_seq_lt.
Qed.

Lemma generated_ids_length docs : length (generated_ids docs) = length docs.
Proof. unfold generated_ids. by rewrite length_fmap, length_seq. Qed.

Lemma default_metadata_length docs :
  length (default_metadata docs) = length docs.
Proof. unfold default_metadata. by rewrite length_fmap. Qed.

Example generated_ids_three :
  generated_ids ["a"; "b"; "c"] = ["doc_0"; "doc_1"; "doc_2"].
Proof. reflexivity. Qed.

Example generated_id_eleventh :
  generated_ids (replicate 11 "a") !! 10 = Some "doc_10".
Proof. vm_compute. reflexivity. Qed.

(** C8.  When [ids] is omitted the ids handed to the index are
    [doc_0], [doc_1], ... up to [doc_(len(documents)-1)]: one per
    document, pairwise distinct, whatever the store holds; they depend on
    the number of documents of this call only, so that two calls without
    explicit ids use the same ids, position by position. *)
Theorem generated_ids_per_call policy self docs docs' meta meta' :
  ids_used docs None
  = (λ i : nat, "doc_" +:+ pretty i) <$> seq 0 (length docs)
  ∧ length (ids_used docs None) = length docs
  ∧ (∀ i, i < length docs →
          ids_used docs None !! i = Some ("doc_" +:+ pretty i))
  ∧ NoDup (ids_used docs None)
  ∧ (∀ c : Client,
       add_documents policy self docs None meta c
       = collection_add policy (collection self) docs
           (ids_used docs None) (metadata_used docs meta) c)
  ∧ (∀ i, i < length docs → i < length docs' →
          ids_used docs' None !! i = ids_used docs None !! i)
  ∧ (length docs' = length docs →
     ∀ c' : Client,
       add_documents policy self docs' None meta' c'
       = collection_add policy (collection self) docs'
           (ids_used docs None) (metadata_used docs' meta') c').
Proof.
  change (ids_used docs None) with (generated_ids docs).
  change (ids_used docs' None) with (generated_ids docs').
  split_and!.
  - done.
  - apply generated_ids_length.
  - apply generated_ids_lookup.
  - apply generated_ids_NoDup.
  - done.
  - intros i Hi Hi'. by rewrite !generated_ids_lookup.
  - intros Hlen c'. rewrite add_documents_unfold.
    change (ids_used docs' None) with (generated_ids docs').
    unfold generated_ids. by rewrite Hlen.
Qed.

(** Under the rejecting policy a second call without ids, after a first
    one went through, collides on [doc_0] and commits nothing. *)
Lemma add_documents_twice_collides self docs1 docs2 meta1 (c c1 : Client) :
  docs2 ≠ [] →
  add_documents Reject self docs1 None meta1 c = (Ok (), c1) →
  add_documents Reject self docs2 None None c1 = (Err DuplicateIdError, c1).
Proof.
  intros Hdocs2 Hadd.
  destruct (add_documents_inv _ _ _ _ _ _ _ Hadd)
    as (Hdocs1 & Hids & Hmetas & ds & Hc & ->).
  rewrite add_documents_unfold. unfold collection_add.
  change (ids_used docs2 None) with (generated_ids docs2).
  change (metadata_used docs2 None) with (default_metadata docs2).
  change (ids_used docs1 None) with (generated_ids docs1) in *.
  rewrite generated_ids_length, default_metadata_length.
  rewrite decide_False by tauto. rewrite lookup_insert_eq.
  rewrite decide_False; [done |]. intros [_ Hfresh].
  rewrite Forall_forall in Hfresh. apply (Hfresh "doc_0").
  - apply list_elem_of_lookup. exists 0.
    apply (generated_ids_lookup docs2 0). destruct docs2; [done | simpl; lia].
  - rewrite fmap_app, new_documents_ids by done.
    apply elem_of_app. right. apply list_elem_of_lookup. exists 0.
    apply (generated_ids_lookup docs1 0). destruct docs1; [done | simpl; lia].
Qed.

(** The validation the index applies before it touches the store. *)
Lemma collection_add_invalid policy h docs ids metas (c : Client) :
  docs = [] ∨ length ids ≠ length docs ∨ length metas ≠ length docs →
  collection_add policy h docs ids metas c = (Err InvalidArgument, c).
Proof.
  intros Hbad. unfold collection_add. by rewrite decide_True.
Qed.

(** C9, as amended.  [add] fails with [InvalidArgument], and leaves the
    store as it was, when the document list is empty, when a non-empty
    list of ids of another length is given, or when a non-empty metadata
    list of another length is given.  An empty list of ids or of metadata
    counts as omitted: the call is the one without that argument, which
    runs on the generated ids or on the default metadata. *)
Theorem add_documents_invalid_argument policy self docs ids meta
    (c : Client) :
  (docs = []
   ∨ (∃ l, ids = Some l ∧ l ≠ [] ∧ length l ≠ length docs)
   ∨ (∃ m, meta = Some m ∧ m ≠ [] ∧ length m ≠ length docs) →
   add_documents policy self docs ids meta c = (Err InvalidArgument, c))
  ∧ add_documents policy self docs (Some []) meta
    = add_documents policy self docs None meta
  ∧ add_documents policy self docs ids (Some [])
    = add_documents policy self docs ids None
  ∧ add_documents policy self docs (Some []) (Some []) c
    = collection_add policy (collection self) docs
        (generated_ids docs) (default_metadata docs) c.
Proof.
  split_and!; [| reflexivity | reflexivity | by rewrite add_documents_unfold].
  intros Hbad. rewrite add_documents_unfold.
  apply collection_add_invalid.
  destruct Hbad as [Hdocs | [(l & -> & Hl & Hlen) | (m & -> & Hm & Hlen)]].
  - by left.
  - right; left. by destruct l.
  - right; right. by destruct m.
Qed.

Lemma add_documents_invalid_argument_witness :
  (sample_docs = []
   ∨ (∃ l, Some ["only_one_id"] = Some l ∧ l ≠ []
           ∧ length l ≠ length sample_docs)
   ∨ (∃ m : list Metadata, None = Some m ∧ m ≠ []
                           ∧ length m ≠ length sample_docs))
  ∧ add_documents Overwrite sample_tool sample_docs
      (Some ["only_one_id"]) None sample_store
    = (Err InvalidArgument, sample_store)
  ∧ add_documents Overwrite sample_tool sample_docs (Some []) None
    = add_documents Overwrite sample_tool sample_docs None None
  ∧ add_documents Overwrite sample_tool sample_docs
      (Some ["only_one_id"]) (Some [])
    = add_documents Overwrite sample_tool sample_docs
        (Some ["only_one_id"]) None.
Proof.
  assert (sample_docs = []
          ∨ (∃ l, Some ["only_one_id"] = Some l ∧ l ≠ []
                  ∧ length l ≠ length sample_docs)
          ∨ (∃ m : list Metadata, None = Some m ∧ m ≠ []
                                  ∧ length m ≠ length sample_docs)) as Hbad.
  { right; left. exists ["only_one_id"]. split_and!; [done | done |].
    simpl. lia. }
  split; [exact Hbad |].
  destruct (add_documents_invalid_argument Overwrite sample_tool sample_docs
              (Some ["only_one_id"]) None sample_store)
    as (Hfails & Hids & Hmeta & _).
  split_and!; [exact (Hfails Hbad) | exact Hids | exact Hmeta].
Defined.

(** C9, as stated, fails: an explicit but empty list of ids, whose length
    differs from that of a one-document list, is replaced by generated
    ids and the document is committed. *)
Lemma add_documents_empty_ids_accepted :
  ¬ (∀ policy self docs ids meta (c : Client),
       docs = []
       ∨ (∃ l, ids = Some l ∧ length l ≠ length docs)
       ∨ (∃ m : list Metadata, meta = Some m ∧ length m ≠ length docs) →
       add_documents policy self docs ids meta c = (Err InvalidArgument, c)).
Proof.
  intros Hclaim.
  specialize (Hclaim Reject sample_tool ["Test document for validation"]
                (Some []) None empty_store).
  assert (add_documents Reject sample_tool ["Test document for validation"]
            (Some []) None empty_store
          = (Ok (),
             {[ "documents" :=
                  [mkDocument "doc_0" "Test document for validation"
                     {["source" := "unknown"]}] ]})) as Hrun
    by (vm_compute; reflexivity).
  rewrite Hrun in Hclaim.
  assert ((Ok (), ({[ "documents" :=
                  [mkDocument "doc_0" "Test document for validation"
                     {["source" := "unknown"]}] ]} : Client))
          = (Err InvalidArgument, empty_store)) as Hbad; [| discriminate].
  apply Hclaim. right; left. exists []. split; [done |]. simpl. lia.
Qed.

(** ** Deleting the collection *)

Lemma delete_collection_run self (c : Client) ds :
  c !! collection_name self = Some ds →
  delete_collection self c = (Ok (), delete (collection_name self) c).
Proof.
  intros Hc. unfold delete_collection, client_delete_collection.
  by rewrite Hc.
Qed.

Lemma delete_collection_missing self (c : Client) :
  c !! collection_name self = None →
  delete_collection self c = (Err StorageError, c).
Proof.
  intros Hc. unfold delete_collection, client_delete_collection.
  by rewrite Hc.
Qed.

Lemma delete_collection_inv self (c c' : Client) :
  delete_collection self c = (Ok (), c') →
  is_Some (c !! collection_name self) ∧ c' = delete (collection_name self) c.
Proof.
  unfold delete_collection, client_delete_collection.
  destruct (c !! collection_name self) as [ds|]; [| discriminate].
  intros [= <-]. split; [by exists ds | done].
Qed.

(** C6 does not hold of the code.  On a store that holds the
    collection, [delete_collection] succeeds and removes it, with all its
    documents, and leaves every other collection alone; but it leaves the
    tool without a collection, so that the same call made again, on the
    store the first one left, does not succeed: it ends in a storage
    error. *)
Theorem delete_collection_once self (c : Client) ds :
  c !! collection_name self = Some ds →
  ∃ c' : Client,
    delete_collection self c = (Ok (), c')
    ∧ c' !! collection_name self = None
    ∧ (∀ name, name ≠ collection_name self → c' !! name = c !! name)
    ∧ delete_collection self c' = (Err StorageError, c').
Proof.
  intros Hc. exists (delete (collection_name self) c).
  split; [by eapply delete_collection_run |].
  split; [apply lookup_delete_eq |].
  split; [intros name Hne; by apply lookup_delete_ne |].
  apply delete_collection_missing, lookup_delete_eq.
Qed.

Lemma delete_collection_once_witness :
  sample_store !! collection_name sample_tool
  = Some (default [] (sample_store !! "documents"))
  ∧ ∃ c' : Client,
      delete_collection sample_tool sample_store = (Ok (), c')
      ∧ c' !! collection_name sample_tool = None
      ∧ (∀ name, name ≠ collection_name sample_tool →
                 c' !! name = sample_store !! name)
      ∧ delete_collection sample_tool c' = (Err StorageError, c').
Proof.
  split; [vm_compute; reflexivity |].
  apply (delete_collection_once sample_tool sample_store
           (default [] (sample_store !! "documents"))).
  vm_compute; reflexivity.
Defined.

(** ** Statistics after a deletion *)

Lemma ChromaTool_init_run setup pd name (c : Client) :
  setup_ok setup pd →
  ChromaTool_init setup pd name c
  = (Ok (mkChromaTool pd name name),
     match c !! name with
     | Some _ => c
     | None => <[name := []]> c
     end).
Proof.
  intros (Hdir & Hclient & Hmodel).
  unfold ChromaTool_init, bind, attempt, get_or_create_collection, ret.
  rewrite Hdir, Hclient, Hmodel. by destruct (c !! name).
Qed.

Lemma ChromaTool_init_inv setup pd name (c c' : Client) self :
  ChromaTool_init setup pd name c = (Ok self, c') →
  setup_ok setup pd
  ∧ self = mkChromaTool pd name name
  ∧ c' = match c !! name with
         | Some _ => c
         | None => <[name := []]> c
         end.
Proof.
  unfold ChromaTool_init, bind, attempt, get_or_create_collection, ret,
    setup_ok.
  destruct (makedirs setup pd); [discriminate |].
  destruct (persistent_client setup pd); [discriminate |].
  destruct (embedding_function setup "all-MiniLM-L6-v2"); [discriminate |].
  destruct (c !! name); by intros [= <- <-].
Qed.

Lemma ChromaTool_init_handle setup pd name (c c' : Client) self :
  ChromaTool_init setup pd name c = (Ok self, c') →
  collection self = collection_name self
  ∧ is_Some (c' !! collection self).
Proof.
  intros Hinit.
  destruct (ChromaTool_init_inv _ _ _ _ _ _ Hinit) as (_ & -> & ->).
  split; [done |]. simpl.
  destruct (c !! name) as [ds|] eqn:Hc.
  - by rewrite Hc.
  - by rewrite lookup_insert_eq.
Qed.

(** C7 does not hold of the code.  A tool built by [__init__] keeps the
    handle it opened there; [delete_collection] removes the collection
    through the client and opens no new one, so [stats] on the same tool
    then fails with a storage error instead of reporting a count of
    zero. *)
Theorem stats_after_delete_fails setup pd name self (c0 c1 c c' : Client) :
  ChromaTool_init setup pd name c0 = (Ok self, c1) →
  delete_collection self c = (Ok (), c') →
  get_collection_stats self c' = (Err StorageError, c').
Proof.
  intros Hinit Hdel.
  destruct (ChromaTool_init_handle _ _ _ _ _ _ Hinit) as [Hhandle _].
  destruct (delete_collection_inv _ _ _ Hdel) as [_ ->].
  unfold get_collection_stats, bind, collection_count.
  by rewrite Hhandle, lookup_delete_eq.
Qed.

Lemma stats_after_delete_fails_witness :
  ChromaTool_init working_setup "./vector_store" "documents" ∅
  = (Ok sample_tool, empty_store)
  ∧ delete_collection sample_tool sample_store
    = (Ok (), (delete_collection sample_tool sample_store).2)
  ∧ get_collection_stats sample_tool
      (delete_collection sample_tool sample_store).2
    = (Err StorageError, (delete_collection sample_tool sample_store).2).
Proof.
  split; [vm_compute; reflexivity |]. split; [vm_compute; reflexivity |].
  apply (stats_after_delete_fails working_setup "./vector_store" "documents"
           sample_tool ∅ empty_store sample_store).
  - vm_compute; reflexivity.
  - vm_compute; reflexivity.
Defined.

(** The count is zero again once the collection has been opened anew. *)
Lemma stats_after_reopen setup self self' (c c' c'' : Client) :
  delete_collection self c = (Ok (), c') →
  ChromaTool_init setup (persist_dir self) (collection_name self) c'
  = (Ok self', c'') →
  get_collection_stats self' c''
  = (Ok (mkStats (collection_name self) 0 (persist_dir self)), c'').
Proof.
  intros Hdel Hinit.
  destruct (delete_collection_inv _ _ _ Hdel) as [_ ->].
  destruct (ChromaTool_init_inv _ _ _ _ _ _ Hinit) as (_ & -> & ->).
  rewrite lookup_delete_eq.
  unfold get_collection_stats, bind, collection_count. simpl.
  by rewrite lookup_insert_eq.
Qed.

(** ** The size of the rendered text *)


Lemma excerpt_short doc : String.length doc ≤ 500 → excerpt doc = doc.
Proof.
  intros Hlen. unfold excerpt.
  destruct (Nat.ltb_spec 500 (String.length doc)); [lia | done].
Qed.

Lemma excerpt_long doc :
  500 < String.length doc →
  excerpt doc = str_prefix 500 doc +:+ "..."
  ∧ String.length (str_prefix 500 doc) = 500.
Proof.
  intros Hlen. unfold excerpt.
  destruct (Nat.ltb_spec 500 (String.length doc)); [| lia].
  split; [done |]. rewrite str_length_prefix. lia.
Qed.

Lemma excerpt_length doc : String.length (excerpt doc) ≤ 503.
Proof.
  destruct (Nat.le_gt_cases (String.length doc) 500) as [Hle|Hgt].
  - rewrite excerpt_short by done. lia.
  - destruct (excerpt_long doc Hgt) as [-> Hpre].
    rewrite str_length_app, Hpre. simpl. lia.
Qed.

Example excerpt_of_500 : excerpt (str_repeat "a" 500) = str_repeat "a" 500.
Proof. vm_compute. reflexivity. Qed.

Example excerpt_of_501 :
  excerpt (str_repeat "a" 501) = str_repeat "a" 500 +:+ "...".
Proof. vm_compute. reflexivity. Qed.

Lemma source_line_length meta :
  String.length (source_line meta)
  ≤ 9 + String.length (default "Unknown" (meta !! "source")).
Proof.
  unfold source_line. destruct (dict_truthy meta); [| simpl; lia].
  rewrite !str_length_app. simpl. lia.
Qed.

Lemma block_length i doc meta :
  String.length (block i doc meta)
  ≤ 535 + String.length (pretty i)
    + String.length (default "Unknown" (meta !! "source")).
Proof.
  unfold block. rewrite !str_length_app.
  pose proof (excerpt_length doc). pose proof (source_line_length meta).
  change (String.length LF) with 1.
  change (String.length "[Document ") with 10.
  change (String.length "]") with 1.
  change (String.length "Content: ") with 9.
  lia.
Qed.

Lemma blocks_length i items :
  String.length (blocks i items) ≤ blocks_bound i items.
Proof.
  revert i. induction items as [|[doc meta] rest IH]; intros i; [done |].
  cbn [blocks blocks_bound]. rewrite str_length_app.
  pose proof (block_length i doc meta). specialize (IH (S i)). lia.
Qed.






(** ** The source line *)

Lemma source_line_some meta v :
  meta !! "source" = Some v → source_line meta = "Source: " +:+ v +:+ LF.
Proof.
  intros Hv. unfold source_line, dict_truthy.
  rewrite bool_decide_eq_false_2; [by rewrite Hv |].
  intros ->. by rewrite lookup_empty in Hv.
Qed.


Lemma rank_hits distance q n ds d :
  d ∈ fst <$> rank distance q n ds → d ∈ ds.
Proof.
  unfold rank. intros ([d' x] & -> & Hin)%list_elem_of_fmap.
  apply subseteq_take in Hin. rewrite merge_sort_Permutation in Hin.
  apply list_elem_of_fmap in Hin as (d'' & [= <- _] & Hin). done.
Qed.












(** * Further properties: the tool, the agent and the HTTP layer *)

(** ** Opening the collection *)

Lemma ChromaTool_init_raises setup pd name (c : Client) :
  ChromaTool_init setup pd name c
  = match makedirs setup pd, persistent_client setup pd,
          embedding_function setup "all-MiniLM-L6-v2" with
    | Some e, _, _ | None, Some e, _ | None, None, Some e => (Err e, c)
    | None, None, None =>
        (Ok (mkChromaTool pd name name),
         match c !! name with
         | Some _ => c
         | None => <[name := []]> c
         end)
    end.
Proof.
  unfold ChromaTool_init, bind, attempt, get_or_create_collection, ret.
  destruct (makedirs setup pd); [done |].
  destruct (persistent_client setup pd); [done |].
  destruct (embedding_function setup "all-MiniLM-L6-v2"); [done |].
  by destruct (c !! name).
Qed.


(** Without these conditions no tool is built and the client is left
    as it was: on a host that cannot create the empty path, the
    constructor raises the error of [os.makedirs]. *)
Example ChromaTool_init_empty_path :
  ChromaTool_init strict_setup EmptyString "documents" sample_store
  = (Err StorageInitError, sample_store).
Proof. by rewrite ChromaTool_init_raises. Qed.

Lemma ChromaTool_init_fails setup pd name (c : Client) :
  ¬ setup_ok setup pd →
  ∃ e, ChromaTool_init setup pd name c = (Err e, c).
Proof.
  intros Hbad. rewrite ChromaTool_init_raises. unfold setup_ok in Hbad.
  destruct (makedirs setup pd); [by eexists |].
  destruct (persistent_client setup pd); [by eexists |].
  destruct (embedding_function setup "all-MiniLM-L6-v2"); [by eexists |].
  by destruct Hbad.
Qed.

(** ** Ids stay unique *)

Lemma upsert_ids d ds :
  doc_id <$> upsert d ds
  = if decide (doc_id d ∈ doc_id <$> ds) then doc_id <$> ds
    else (doc_id <$> ds) ++ [doc_id d].
Proof.
  induction ds as [|d' ds IH].
  - case_decide as Hin; [| done]. by apply elem_of_nil in Hin.
  - cbn [upsert]. rewrite !fmap_cons.
    destruct (decide (doc_id d' = doc_id d)) as [Heq|Hne].
    + clear IH. case_decide as Hnin; [by rewrite fmap_cons, Heq |].
      exfalso. apply Hnin. rewrite Heq. apply list_elem_of_here.
    + rewrite fmap_cons, IH. clear IH.
      case_decide as Hin; case_decide as Hin'; try done.
      * exfalso. apply Hin'. by apply list_elem_of_further.
      * apply elem_of_cons in Hin' as [?|?]; congruence.
Qed.

Lemma upsert_NoDup d ds :
  NoDup (doc_id <$> ds) → NoDup (doc_id <$> upsert d ds).
Proof.
  intros Hnd. rewrite upsert_ids. case_decide; [done |].
  apply NoDup_app. split_and!; [done | | apply NoDup_singleton].
  intros i Hi ->%list_elem_of_singleton. done.
Qed.

Lemma upsert_keeps_ids d ds i :
  i ∈ doc_id <$> ds → i ∈ doc_id <$> upsert d ds.
Proof.
  intros Hi. rewrite upsert_ids. case_decide; [done |].
  apply elem_of_app. by left.
Qed.

Lemma upsert_length d ds :
  length ds ≤ length (upsert d ds) ≤ S (length ds).
Proof.
  rewrite <-!(length_fmap doc_id), upsert_ids. case_decide.
  - lia.
  - rewrite length_app. simpl. lia.
Qed.

Lemma foldl_upsert_invariant new ds :
  NoDup (doc_id <$> ds) →
  NoDup (doc_id <$> foldl (λ acc d, upsert d acc) ds new)
  ∧ (∀ i, i ∈ doc_id <$> ds →
          i ∈ doc_id <$> foldl (λ acc d, upsert d acc) ds new)
  ∧ length ds ≤ length (foldl (λ acc d, upsert d acc) ds new)
    ≤ length ds + length new.
Proof.
  revert ds. induction new as [|d new IH]; intros ds Hnd; simpl.
  - split_and!; [done | done | lia | lia].
  - destruct (IH (upsert d ds) (upsert_NoDup d ds Hnd)) as (H1 & H2 & H3).
    pose proof (upsert_length d ds).
    split_and!; [done | | lia | lia].
    intros i Hi. by apply H2, upsert_keeps_ids.
Qed.

(** A successful [add_documents] keeps the ids of the collection
    pairwise distinct, under either policy: no id is lost, no other
    collection is touched, and the collection grows by at most
    [len(documents)]. *)
Theorem add_documents_keeps_ids_unique policy self docs ids meta
    (c c' : Client) ds :
  c !! collection self = Some ds →
  NoDup (doc_id <$> ds) →
  add_documents policy self docs ids meta c = (Ok (), c') →
  ∃ ds',
    c' !! collection self = Some ds'
    ∧ NoDup (doc_id <$> ds')
    ∧ (∀ i, i ∈ doc_id <$> ds → i ∈ doc_id <$> ds')
    ∧ length ds ≤ length ds' ≤ length ds + length docs
    ∧ (∀ other, other ≠ collection self → c' !! other = c !! other).
Proof.
  intros Hc Hnd Hadd.
  destruct (add_documents_inv _ _ _ _ _ _ _ Hadd)
    as (Hdocs & Hids & Hmetas & ds0 & Hc0 & ->).
  rewrite Hc in Hc0. injection Hc0 as <-.
  set (new := new_documents docs (ids_used docs ids)
                (metadata_used docs meta)).
  assert (length new = length docs) as Hnew
    by (by apply new_documents_length).
  eexists. split; [apply lookup_insert_eq |].
  assert (∀ ds', (NoDup (doc_id <$> ds')
            ∧ (∀ i, i ∈ doc_id <$> ds → i ∈ doc_id <$> ds')
            ∧ length ds ≤ length ds' ≤ length ds + length docs) →
          NoDup (doc_id <$> ds')
          ∧ (∀ i, i ∈ doc_id <$> ds → i ∈ doc_id <$> ds')
          ∧ length ds ≤ length ds' ≤ length ds + length docs
          ∧ (∀ other, other ≠ collection self →
               <[collection self := ds']> c !! other = c !! other)) as Hwrap.
  { intros ds' (? & ? & ?). split_and!; [done | done | lia | lia |].
    intros other Hne. by rewrite lookup_insert_ne. }
  apply Hwrap. destruct policy.
  - unfold add_documents, collection_add in Hadd.
    fold (ids_used docs ids) in Hadd. fold (metadata_used docs meta) in Hadd.
    rewrite decide_False in Hadd by (intros [?|[?|?]]; done).
    rewrite Hc in Hadd.
    destruct (decide _) as [[Hnd' Hfresh]|]; [| discriminate].
    split_and!.
    + rewrite fmap_app. apply NoDup_app. split_and!; [done | |].
      * intros i Hi Hi'. unfold new in Hi'.
        rewrite new_documents_ids in Hi' by done.
        rewrite Forall_forall in Hfresh. by apply (Hfresh i).
      * unfold new. by rewrite new_documents_ids.
    + intros i Hi. rewrite fmap_app. apply elem_of_app. by left.
    + rewrite length_app. lia.
    + rewrite length_app. lia.
  - rewrite <-Hnew. by apply foldl_upsert_invariant.
Qed.

(** ** Running a valid call *)

Lemma add_documents_run policy self docs ids meta (c : Client) ds :
  docs ≠ [] →
  length (ids_used docs ids) = length docs →
  length (metadata_used docs meta) = length docs →
  c !! collection self = Some ds →
  NoDup (ids_used docs ids) →
  Forall (λ i, i ∉ doc_id <$> ds) (ids_used docs ids) →
  add_documents policy self docs ids meta c
  = (Ok (),
     <[collection self :=
         ds ++ new_documents docs (ids_used docs ids)
                 (metadata_used docs meta)]> c).
Proof.
  intros Hdocs Hids Hmetas Hc Hnd Hfresh.
  rewrite add_documents_unfold. unfold collection_add.
  rewrite decide_False by (intros [?|[?|?]]; done). rewrite Hc.
  destruct policy.
  - by rewrite decide_True.
  - rewrite foldl_upsert_fresh; [done | |]; by rewrite new_documents_ids.
Qed.

Lemma add_documents_overwrite_run self docs ids meta (c : Client) ds :
  docs ≠ [] →
  length (ids_used docs ids) = length docs →
  length (metadata_used docs meta) = length docs →
  c !! collection self = Some ds →
  add_documents Overwrite self docs ids meta c
  = (Ok (),
     <[collection self :=
         foldl (λ acc d, upsert d acc) ds
           (new_documents docs (ids_used docs ids)
              (metadata_used docs meta))]> c).
Proof.
  intros Hdocs Hids Hmetas Hc.
  rewrite add_documents_unfold. unfold collection_add.
  rewrite decide_False by (intros [?|[?|?]]; done). by rewrite Hc.
Qed.

Lemma new_documents_texts docs ids metas :
  length ids = length docs → length metas = length docs →
  doc_text <$> new_documents docs ids metas = docs.
Proof.
  unfold new_documents. revert docs metas.
  induction ids as [|i ids IH]; intros [|d docs] [|m metas] Hi Hm;
    simplify_eq/=; [done |].
  f_equal. by apply IH.
Qed.

(** ** Writing over what is stored *)

Lemma foldl_upsert_cons_other h ds new :
  Forall (λ d, doc_id d ≠ doc_id h) new →
  foldl (λ acc d, upsert d acc) (h :: ds) new
  = h :: foldl (λ acc d, upsert d acc) ds new.
Proof.
  revert ds. induction new as [|d new IH]; intros ds Hne; [done |].
  apply Forall_cons in Hne as [Hd Hnew]. simpl.
  destruct (decide (doc_id h = doc_id d)); [congruence |]. by apply IH.
Qed.

Lemma foldl_upsert_same_ids new ds :
  doc_id <$> ds = doc_id <$> new →
  NoDup (doc_id <$> new) →
  foldl (λ acc d, upsert d acc) ds new = new.
Proof.
  revert ds. induction new as [|e new IH]; intros [|d ds] Hids Hnd;
    try discriminate; [done |].
  rewrite !fmap_cons in Hids. injection Hids as Hd Hids.
  rewrite fmap_cons in Hnd. apply NoDup_cons in Hnd as [He Hnd].
  simpl. rewrite decide_True by done.
  rewrite foldl_upsert_cons_other.
  - f_equal. by apply IH.
  - apply Forall_forall. intros d' Hd' Heq. apply He. rewrite <-Heq.
    apply list_elem_of_fmap. by exists d'.
Qed.

(** Under the overwriting policy a second batch without ids, as long as
    the first, takes the place of the first: the collection then holds the
    second batch and nothing else. *)
Theorem add_documents_twice_replaces self docs1 docs2 meta1
    (c c1 : Client) :
  c !! collection self = Some [] →
  add_documents Overwrite self docs1 None meta1 c = (Ok (), c1) →
  length docs2 = length docs1 →
  ∃ c2 ds2,
    add_documents Overwrite self docs2 None None c1 = (Ok (), c2)
    ∧ c2 !! collection self = Some ds2
    ∧ doc_text <$> ds2 = docs2
    ∧ doc_id <$> ds2 = generated_ids docs1
    ∧ get_collection_stats self c2
      = (Ok (mkStats (collection_name self) (length docs1) (persist_dir self)),
         c2).
Proof.
  intros Hc Hadd Hlen.
  destruct (add_documents_inv _ _ _ _ _ _ _ Hadd)
    as (Hdocs1 & Hids1 & Hmetas1 & ds & Hc0 & ->).
  rewrite Hc in Hc0. injection Hc0 as <-.
  change (ids_used docs1 None) with (generated_ids docs1) in *.
  set (new1 := new_documents docs1 (generated_ids docs1)
                 (metadata_used docs1 meta1)).
  assert (doc_id <$> new1 = generated_ids docs1) as Hnew1
    by (by apply new_documents_ids).
  assert (foldl (λ acc d, upsert d acc) [] new1 = new1) as Hfold1.
  { rewrite foldl_upsert_fresh; [done | |].
    - rewrite Hnew1. apply generated_ids_NoDup.
    - apply Forall_forall. intros i _. apply not_elem_of_nil. }
  rewrite Hfold1.
  assert (generated_ids docs2 = generated_ids docs1) as Hgen
    by (unfold generated_ids; by rewrite Hlen).
  assert (docs2 ≠ []) as Hdocs2.
  { intros ->. apply Hdocs1. by apply length_zero_iff_nil. }
  set (new2 := new_documents docs2 (generated_ids docs2)
                 (default_metadata docs2)).
  assert (doc_id <$> new2 = generated_ids docs2) as Hnew2.
  { apply new_documents_ids;
      [apply generated_ids_length | apply default_metadata_length]. }
  eexists _, new2.
  split.
  { rewrite (add_documents_overwrite_run _ _ _ _ _ new1);
      [| done | apply generated_ids_length | apply default_metadata_length
       | apply lookup_insert_eq].
    change (ids_used docs2 None) with (generated_ids docs2).
    change (metadata_used docs2 None) with (default_metadata docs2).
    fold new2. rewrite foldl_upsert_same_ids; [reflexivity | |].
    - by rewrite Hnew1, Hnew2.
    - rewrite Hnew2. apply generated_ids_NoDup. }
  split; [apply lookup_insert_eq |].
  split.
  { apply new_documents_texts;
      [apply generated_ids_length | apply default_metadata_length]. }
  split; [by rewrite Hnew2 |].
  rewrite (stats_run _ _ new2) by apply lookup_insert_eq.
  unfold new2. rewrite new_documents_length;
    [by rewrite Hlen | apply generated_ids_length
     | apply default_metadata_length].
Qed.

(** ** Writing the same batch again *)

Lemma upsert_stored_first d l : stored_first d l → upsert d l = l.
Proof.
  intros (l1 & l2 & -> & Hfresh).
  induction l1 as [|x l1 IH]; simpl.
  - by rewrite decide_True.
  - rewrite fmap_cons in Hfresh.
    apply not_elem_of_cons in Hfresh as [Hne Hfresh].
    rewrite decide_False by done. by rewrite IH.
Qed.

Lemma stored_first_upsert d l : stored_first d (upsert d l).
Proof.
  induction l as [|x l IH]; simpl.
  - exists [], []. split; [done | apply not_elem_of_nil].
  - destruct (decide (doc_id x = doc_id d)) as [Heq|Hne].
    + exists [], l. split; [done | apply not_elem_of_nil].
    + destruct IH as (l1 & l2 & Hl & Hfresh).
      exists (x :: l1), l2. split; [by rewrite Hl |].
      rewrite fmap_cons. apply not_elem_of_cons. split; [congruence | done].
Qed.

Lemma stored_first_upsert_other d e l :
  doc_id e ≠ doc_id d → stored_first d l → stored_first d (upsert e l).
Proof.
  intros Hne (l1 & l2 & -> & Hfresh).
  induction l1 as [|x l1 IH]; simpl.
  - rewrite decide_False by congruence.
    exists [], (upsert e l2). split; [done | apply not_elem_of_nil].
  - rewrite fmap_cons in Hfresh.
    apply not_elem_of_cons in Hfresh as [Hx Hfresh].
    destruct (decide (doc_id x = doc_id e)) as [Heq|Hxe].
    + exists (e :: l1), l2. split; [done |].
      rewrite fmap_cons. apply not_elem_of_cons. split; [congruence | done].
    + destruct (IH Hfresh) as (l1' & l2' & Hl & Hfresh').
      exists (x :: l1'), l2'. split; [by rewrite Hl |].
      rewrite fmap_cons. apply not_elem_of_cons. split; [done | done].
Qed.

Lemma stored_first_foldl d new l :
  Forall (λ e, doc_id e ≠ doc_id d) new →
  stored_first d l →
  stored_first d (foldl (λ acc e, upsert e acc) l new).
Proof.
  revert l. induction new as [|e new IH]; intros l Hne Hd; [done |].
  apply Forall_cons in Hne as [He Hnew]. simpl.
  apply IH; [done |]. by apply stored_first_upsert_other.
Qed.

Lemma foldl_upsert_stored new l :
  NoDup (doc_id <$> new) →
  Forall (λ d, stored_first d (foldl (λ acc e, upsert e acc) l new)) new.
Proof.
  revert l. induction new as [|d new IH]; intros l Hnd; [done |].
  rewrite fmap_cons in Hnd. apply NoDup_cons in Hnd as [Hd Hnd].
  simpl. constructor; [| by apply IH].
  apply stored_first_foldl; [| apply stored_first_upsert].
  apply Forall_forall. intros e He Heq. apply Hd. rewrite <-Heq.
  apply list_elem_of_fmap. by exists e.
Qed.

Lemma foldl_upsert_stored_id new l :
  Forall (λ d, stored_first d l) new →
  foldl (λ acc e, upsert e acc) l new = l.
Proof.
  induction 1 as [|d new Hd Hnew IH]; [done |].
  simpl. by rewrite upsert_stored_first.
Qed.

Lemma foldl_upsert_idempotent new l :
  NoDup (doc_id <$> new) →
  foldl (λ acc e, upsert e acc) (foldl (λ acc e, upsert e acc) l new) new
  = foldl (λ acc e, upsert e acc) l new.
Proof.
  intros Hnd. by apply foldl_upsert_stored_id, foldl_upsert_stored.
Qed.

(** Under the overwriting policy, adding a batch whose ids are pairwise
    distinct a second time changes nothing: the store is the one the
    first call left. *)
Theorem add_documents_overwrite_idempotent self docs ids meta
    (c c1 : Client) :
  NoDup (ids_used docs ids) →
  add_documents Overwrite self docs ids meta c = (Ok (), c1) →
  add_documents Overwrite self docs ids meta c1 = (Ok (), c1).
Proof.
  intros Hnd Hadd.
  destruct (add_documents_inv _ _ _ _ _ _ _ Hadd)
    as (Hdocs & Hids & Hmetas & ds & Hc & ->).
  rewrite (add_documents_overwrite_run _ _ _ _ _
             (foldl (λ acc d, upsert d acc) ds
                (new_documents docs (ids_used docs ids)
                   (metadata_used docs meta))));
    [| done | done | done | apply lookup_insert_eq].
  rewrite foldl_upsert_idempotent by (by rewrite new_documents_ids).
  by rewrite insert_insert_eq.
Qed.

(** ** The sample documents *)

Lemma sample_documents_ids :
  doc_id <$> sample_documents
  = ["sample_doc_0"; "sample_doc_1"; "sample_doc_2"; "sample_doc_3";
     "sample_doc_4"].
Proof. vm_compute. reflexivity. Qed.

Lemma load_sample_documents_unfold policy tool :
  load_sample_documents policy tool
  = add_documents policy tool sample_docs
      (Some (doc_id <$> sample_documents))
      (Some (doc_meta <$> sample_documents)).
Proof. reflexivity. Qed.

Lemma sample_documents_new :
  new_documents sample_docs (doc_id <$> sample_documents)
    (doc_meta <$> sample_documents)
  = sample_documents.
Proof. vm_compute. reflexivity. Qed.

Lemma load_sample_documents_run policy tool (c : Client) ds :
  c !! collection tool = Some ds →
  Forall (λ i, i ∉ doc_id <$> ds) (doc_id <$> sample_documents) →
  load_sample_documents policy tool c
  = (Ok (), <[collection tool := ds ++ sample_documents]> c).
Proof.
  intros Hc Hfresh. rewrite load_sample_documents_unfold.
  rewrite (add_documents_run _ _ _ _ _ _ ds); try done.
  apply (bool_decide_unpack _). vm_compute. exact I.
Qed.

(** On a collection that holds none of the ids [sample_doc_0] to
    [sample_doc_4], [load_sample_documents] succeeds and appends the five
    samples in order; the count grows by five, and each sample is stored
    with the source [sample] and rendered with the line
    [Source: sample]. *)
Theorem load_sample_documents_adds_five policy tool (c : Client) ds :
  c !! collection tool = Some ds →
  Forall (λ i, i ∉ doc_id <$> ds)
    ["sample_doc_0"; "sample_doc_1"; "sample_doc_2"; "sample_doc_3";
     "sample_doc_4"] →
  ∃ c' : Client,
    load_sample_documents policy tool c = (Ok (), c')
    ∧ c' !! collection tool = Some (ds ++ sample_documents)
    ∧ doc_text <$> sample_documents = sample_docs
    ∧ Forall (λ d, source_line (doc_meta d) = "Source: sample" +:+ LF)
        sample_documents
    ∧ get_collection_stats tool c'
      = (Ok (mkStats (collection_name tool) (length ds + 5)
               (persist_dir tool)), c').
Proof.
  intros Hc Hfresh. rewrite <-sample_documents_ids in Hfresh.
  eexists. split; [by apply load_sample_documents_run |].
  split; [apply lookup_insert_eq |].
  split; [vm_compute; reflexivity |].
  split.
  { apply Forall_forall. intros d Hd. apply source_line_some.
    revert d Hd. apply Forall_forall.
    apply (bool_decide_unpack _). vm_compute. exact I. }
  rewrite (stats_run _ _ (ds ++ sample_documents)) by apply lookup_insert_eq.
  by rewrite length_app.
Qed.

(** Loading the samples a second time never changes the store: under
    the overwriting policy the call succeeds and writes the same five
    documents over themselves, under the rejecting policy it fails on
    the duplicate ids and commits nothing. *)
Theorem load_sample_documents_again policy tool (c c1 : Client) :
  load_sample_documents policy tool c = (Ok (), c1) →
  load_sample_documents policy tool c1
  = (match policy with
     | Overwrite => Ok ()
     | Reject => Err DuplicateIdError
     end, c1).
Proof.
  intros Hload. destruct policy.
  - rewrite load_sample_documents_unfold in *.
    destruct (add_documents_inv _ _ _ _ _ _ _ Hload)
      as (Hdocs & Hids & Hmetas & ds & Hc & ->).
    rewrite add_documents_unfold. unfold collection_add.
    rewrite decide_False by (intros [?|[?|?]]; done).
    rewrite lookup_insert_eq.
    rewrite decide_False; [done |]. intros [_ Hfresh].
    rewrite Forall_forall in Hfresh. apply (Hfresh "sample_doc_0").
    + apply (bool_decide_unpack _). vm_compute. exact I.
    + rewrite fmap_app. apply elem_of_app. right.
      change (ids_used sample_docs (Some (doc_id <$> sample_documents)))
        with (doc_id <$> sample_documents).
      change (metadata_used sample_docs
                (Some (doc_meta <$> sample_documents)))
        with (doc_meta <$> sample_documents).
      rewrite sample_documents_new.
      apply (bool_decide_unpack _). vm_compute. exact I.
  - rewrite load_sample_documents_unfold in *.
    eapply add_documents_overwrite_idempotent; [| exact Hload].
    apply (bool_decide_unpack _). vm_compute. exact I.
Qed.

(** ** Stripped text *)

Lemma py_lstrip_first s a s' :
  py_lstrip s = String a s' → py_isspace a = false.
Proof.
  induction s as [|b s IH]; simpl; [done |].
  destruct (py_isspace b) eqn:Hb; [done |]. by intros [= <- _].
Qed.

Lemma py_rstrip_first s a s' :
  py_rstrip s = String a s' → ∃ t, s = String a t.
Proof.
  destruct s as [|b s]; simpl; [done |].
  destruct (py_rstrip s); [destruct (py_isspace b); [done |] |];
    intros [= <- _]; by eexists.
Qed.

Lemma py_rstrip_last s s' a :
  py_rstrip s = s' +:+ String a EmptyString → py_isspace a = false.
Proof.
  revert s'. induction s as [|b s IH]; intros s'; simpl.
  - by destruct s'.
  - destruct (py_rstrip s) as [|x r] eqn:Hr.
    + destruct (py_isspace b) eqn:Hb; [by destruct s' |].
      destruct s' as [|y s']; [by intros [= <-] |].
      rewrite str_app_cons. intros [= _ Hs']. by destruct s'.
    + destruct s' as [|y s']; [done |].
      rewrite str_app_cons. intros [= _ Hs']. by apply (IH s').
Qed.

Lemma py_strip_first s a s' :
  py_strip s = String a s' → py_isspace a = false.
Proof.
  unfold py_strip. intros Hs.
  destruct (py_rstrip_first _ _ _ Hs) as [t Ht].
  by apply (py_lstrip_first s a t).
Qed.

Lemma py_strip_last s s' a :
  py_strip s = s' +:+ String a EmptyString → py_isspace a = false.
Proof. unfold py_strip. apply py_rstrip_last. Qed.

Lemma py_lstrip_length s : String.length (py_lstrip s) ≤ String.length s.
Proof.
  induction s as [|b s IH]; simpl; [done |].
  destruct (py_isspace b); simpl; lia.
Qed.

Lemma py_rstrip_length s : String.length (py_rstrip s) ≤ String.length s.
Proof.
  induction s as [|b s IH]; simpl; [done |].
  destruct (py_rstrip s); [destruct (py_isspace b) |]; simpl in *; lia.
Qed.

(** When the exchange ends with a JSON object, [_call_ollama] returns
    the empty string if the object has no [response] key, and otherwise
    the text under that key stripped of surrounding whitespace: no longer
    than the text, and neither starting nor ending with a whitespace
    character. *)
Theorem call_ollama_reply post self prompt fields :
  post (Agent.ollama_url self +:+ "/api/generate")
    (Agent.mkPayload (Agent.model self) prompt false
       (Agent.temperature self) (Agent.max_tokens self))
  = Agent.JsonObject fields →
  (fields !! "response" = None →
   Agent._call_ollama post self prompt = EmptyString)
  ∧ (∀ text,
       fields !! "response" = Some (Agent.JString text) →
       Agent._call_ollama post self prompt = py_strip text
       ∧ String.length (Agent._call_ollama post self prompt)
         ≤ String.length text
       ∧ (∀ a rest,
            Agent._call_ollama post self prompt = String a rest →
            py_isspace a = false)
       ∧ (∀ rest a,
            Agent._call_ollama post self prompt
            = rest +:+ String a EmptyString →
            py_isspace a = false)).
Proof.
  intros Hpost. unfold Agent._call_ollama. rewrite Hpost. split.
  - by intros ->.
  - intros text ->. simpl. split_and!; [done | | |].
    + unfold py_strip. etrans; [apply py_rstrip_length |].
      apply py_lstrip_length.
    + intros a rest. apply py_strip_first.
    + intros rest a. apply py_strip_last.
Qed.

(** ** Answering with retrieved context *)

Lemma build_prompt_length query context :
  String.length (Agent.build_prompt query context)
  = 346 + String.length context + String.length query.
Proof.
  unfold Agent.build_prompt. rewrite !str_length_app.
  change (String.length LF) with 1. simpl String.length. lia.
Qed.

Lemma result_dict_documents row :
  result_dict row !! "documents" = Some (VStrs ((doc_text ∘ fst) <$> row)).
Proof. unfold result_dict. by simplify_map_eq. Qed.

Lemma result_dict_metadatas row :
  result_dict row !! "metadatas" = Some (VMetas ((doc_meta ∘ fst) <$> row)).
Proof. unfold result_dict. by simplify_map_eq. Qed.

(** With [use_context] set, on a live collection and for
    [n_results >= 1], [get_response] succeeds and leaves the store as it
    is.  The documents it reports are those of the search, at most
    [min(n_results, count)], and the prompt sent to the language model is
    the template filled with the context rendered from exactly these
    documents, or with the sentinel sentence when there are none; the
    prompt is at most 418 characters plus the query plus the bound on the
    rendered blocks. *)
Theorem get_response_with_context distance post self query n
    (c : Client) ds :
  c !! collection (Agent.vector_store self) = Some ds → (1 ≤ n)%Z →
  ∃ r docs metas context,
    search distance (Agent.vector_store self) query n c = (Ok r, c)
    ∧ r !! "documents" = Some (VStrs docs)
    ∧ r !! "metadatas" = Some (VMetas metas)
    ∧ length metas = length docs
    ∧ length docs ≤ Z.to_nat n `min` length ds
    ∧ context = (if bool_decide (docs = []) then no_documents_found
                 else header +:+ blocks 1 (zip docs metas))
    ∧ Agent.get_response distance post self query true n c
      = (Ok (Agent.mkResponse query
               (Agent._call_ollama post self
                  (Agent.build_prompt query context))
               docs true (Agent.model self)), c)
    ∧ String.length (Agent.build_prompt query context)
      ≤ 418 + String.length query + blocks_bound 1 (zip docs metas).
Proof.
  intros Hc Hn.
  set (row := rank distance query (Z.to_nat n) ds).
  exists (result_dict row), ((doc_text ∘ fst) <$> row),
    ((doc_meta ∘ fst) <$> row).
  eexists. split; [by apply search_run |].
  split; [apply result_dict_documents |].
  split; [apply result_dict_metadatas |].
  split; [by rewrite !length_fmap |].
  split; [rewrite length_fmap; unfold row; by rewrite rank_length |].
  split; [reflexivity |].
  assert ((if bool_decide ((doc_text ∘ fst) <$> row = [])
           then no_documents_found
           else header +:+ blocks 1
                  (zip ((doc_text ∘ fst) <$> row) ((doc_meta ∘ fst) <$> row)))
          = (if bool_decide (row = []) then no_documents_found
             else header +:+ blocks 1 (row_items row))) as Hcontext.
  { rewrite zip_row_items. by destruct row. }
  split.
  - unfold Agent.get_response, bind.
    rewrite (search_run _ _ _ _ _ ds) by done.
    unfold dict_strs. rewrite result_dict_documents. unfold ret at 1.
    rewrite (search_formatted_run _ _ _ _ _ ds) by done.
    unfold ret. cbn zeta. fold row. cbn [fst snd]. by rewrite Hcontext.
  - rewrite build_prompt_length.
    case_bool_decide as Hnil.
    + change (String.length no_documents_found) with 38. lia.
    + rewrite str_length_app. change (String.length header) with 72.
      pose proof (blocks_length 1
                    (zip ((doc_text ∘ fst) <$> row)
                       ((doc_meta ∘ fst) <$> row))). lia.
Qed.

(** With [use_context] set, [get_response] fails, and answers
    nothing, when [n_results] is below one (an invalid argument) or when
    the collection of its tool is gone (a storage error); the store is
    left as it is. *)
Theorem get_response_fails distance post self query n (c : Client) :
  (n < 1)%Z ∨ c !! collection (Agent.vector_store self) = None →
  Agent.get_response distance post self query true n c
  = (Err (if decide (n < 1)%Z then InvalidArgument else StorageError), c).
Proof.
  intros Hbad. unfold Agent.get_response, bind, search, bind, collection_query.
  destruct (decide (n < 1)%Z) as [Hn|Hn]; [done |].
  destruct Hbad as [?|Hc]; [lia |]. by rewrite Hc.
Qed.

(** ** Starting the server *)

Lemma ChromaTool_init_live setup pd name (c : Client) ds :
  setup_ok setup pd →
  c !! name = Some ds →
  ChromaTool_init setup pd name c = (Ok (mkChromaTool pd name name), c).
Proof. intros Hsetup Hc. by rewrite ChromaTool_init_run, Hc. Qed.

Lemma startup_event_run setup policy (c : Client) :
  setup_ok setup "./vector_store" →
  Api.startup_event setup policy c
  = (Ok started_server,
     if decide (default [] (c !! "documents") = [])
     then <["documents" := sample_documents]> c else c).
Proof.
  intros Hsetup. unfold Api.startup_event, Agent.RAGAgent_init, bind.
  rewrite (ChromaTool_init_run _ _ _ c) by done. unfold ret at 1.
  destruct (c !! "documents") as [ds|] eqn:Hc; simpl default.
  - rewrite (ChromaTool_init_live _ _ _ _ ds) by done. unfold ret at 1.
    rewrite (stats_run _ _ ds) by done. cbn [document_count].
    destruct ds as [|d ds]; [| done].
    cbn [length Nat.eqb].
    rewrite (load_sample_documents_run _ _ _ []); [done | done |].
    apply Forall_forall. intros i _. apply not_elem_of_nil.
  - rewrite (ChromaTool_init_live _ _ _ _ [])
      by (done || apply lookup_insert_eq).
    unfold ret at 1.
    rewrite (stats_run _ _ []) by apply lookup_insert_eq.
    cbn [document_count length Nat.eqb].
    rewrite (load_sample_documents_run _ _ _ []);
      [| apply lookup_insert_eq
       | apply Forall_forall; intros i _; apply not_elem_of_nil].
    cbn [collection app]. by rewrite insert_insert_eq.
Qed.

Lemma health_check_live (c : Client) ds :
  c !! "documents" = Some ds →
  Api.health_check started_server c
  = (Ok (Api.Http200 (Api.mkHealthBody "healthy" (length ds))), c).
Proof.
  intros Hc. unfold Api.health_check, started_server, bind. simpl.
  by rewrite (stats_run _ _ ds).
Qed.

Lemma startup_event_fails setup policy (c : Client) :
  ¬ setup_ok setup "./vector_store" →
  ∃ e, Api.startup_event setup policy c = (Err e, c).
Proof.
  intros Hbad. unfold Api.startup_event, bind.
  destruct (ChromaTool_init_fails _ _ "documents" c Hbad) as [e ->].
  by exists e.
Qed.

(** The startup event, when both constructions go through (the
    directory can be created, the client opened on it and the embedding
    model loaded), sets both globals.  It loads the five samples when the
    collection is missing or empty and leaves a non-empty collection as
    it is, so that the health check which follows reports at least one
    document; no other collection is touched. *)
Theorem startup_event_populates setup policy (c : Client) :
  setup_ok setup "./vector_store" →
  ∃ (c' : Client) n,
    Api.startup_event setup policy c = (Ok started_server, c')
    ∧ c' !! "documents"
      = Some (if decide (default [] (c !! "documents") = [])
              then sample_documents else default [] (c !! "documents"))
    ∧ (∀ other, other ≠ "documents" → c' !! other = c !! other)
    ∧ Api.health_check started_server c'
      = (Ok (Api.Http200 (Api.mkHealthBody "healthy" n)), c')
    ∧ 1 ≤ n
    ∧ n = (if decide (default [] (c !! "documents") = []) then 5
           else length (default [] (c !! "documents"))).
Proof.
  intros Hsetup. rewrite startup_event_run by done.
  destruct (decide (default [] (c !! "documents") = [])) as [Hnil|Hne].
  - eexists _, 5. split_and!; [done | apply lookup_insert_eq | | | lia | done].
    + intros other Hother. by rewrite lookup_insert_ne.
    + by rewrite (health_check_live _ sample_documents)
        by apply lookup_insert_eq.
  - destruct (c !! "documents") as [ds|] eqn:Hc; [| done]. simpl in *.
    eexists _, (length ds).
    split_and!; [done | done | done | by apply health_check_live | | done].
    destruct ds; [done | simpl; lia].
Qed.

(** ** The search endpoint *)

Lemma search_fails distance self q n (c : Client) :
  (n < 1)%Z ∨ c !! collection self = None →
  search distance self q n c
  = (Err (if decide (n < 1)%Z then InvalidArgument else StorageError), c).
Proof.
  intros Hbad. unfold search, bind, collection_query.
  destruct (decide (n < 1)%Z) as [Hn|Hn]; [done |].
  destruct Hbad as [?|Hc]; [lia |]. by rewrite Hc.
Qed.

(** The search endpoint never lets an exception through and never
    changes the store.  A 200 reply carries the query and a count equal
    to the number of documents returned, at most [n_results]; without a
    tool the reply is 503; [n_results] below one gives 500 with the
    invalid-argument error and a missing collection 500 with the storage
    error. *)
Theorem search_documents_reply distance server request (c : Client) :
  ∃ reply,
    Api.search_documents distance server request c = (Ok reply, c)
    ∧ (∀ body,
         reply = Api.Http200 body →
         (1 ≤ Api.search_n_results request)%Z
         ∧ Api.body_query body = Api.search_text request
         ∧ Api.body_count body ≤ Z.to_nat (Api.search_n_results request)
         ∧ ∃ docs,
             Api.body_results body !! "documents" = Some (VStrs docs)
             ∧ Api.body_count body = length docs)
    ∧ (Api.vector_store server = None →
       reply = Api.HTTPException 503 (Api.Text "Vector store not initialized"))
    ∧ (∀ tool,
         Api.vector_store server = Some tool →
         (Api.search_n_results request < 1)%Z →
         reply = Api.HTTPException 500 (Api.ExceptionText InvalidArgument))
    ∧ (∀ tool,
         Api.vector_store server = Some tool →
         (1 ≤ Api.search_n_results request)%Z →
         c !! collection tool = None →
         reply = Api.HTTPException 500 (Api.ExceptionText StorageError)).
Proof.
  unfold Api.search_documents.
  destruct (Api.vector_store server) as [tool|].
  2:{ eexists. split; [reflexivity |]. split_and!; try done. }
  unfold Api.try_except, bind.
  destruct (decide (Api.search_n_results request < 1)%Z) as [Hn|Hn].
  { rewrite search_fails by (by left). rewrite decide_True by done.
    eexists. split; [reflexivity |].
    split_and!; try done; intros; simplify_eq; lia. }
  destruct (c !! collection tool) as [ds|] eqn:Hc.
  - rewrite (search_run _ _ _ _ _ ds) by (done || lia).
    unfold dict_strs. rewrite result_dict_documents. unfold ret.
    eexists. split; [reflexivity |]. split_and!; try done.
    + intros body [= <-]. cbn.
      split_and!; [lia | done | |].
      * rewrite length_fmap, rank_length. lia.
      * eexists. split; [apply result_dict_documents | done].
    + intros tool' [= <-] _ ?. congruence.
  - rewrite search_fails by (by right). rewrite decide_False by done.
    eexists. split; [reflexivity |].
    split_and!; try done; intros; simplify_eq; lia.
Qed.

(** ** The documents endpoint *)

Lemma foldl_upsert_length new ds :
  length ds ≤ length (foldl (λ acc d, upsert d acc) ds new)
  ≤ length ds + length new.
Proof.
  revert ds. induction new as [|d new IH]; intros ds; simpl; [lia |].
  pose proof (upsert_length d ds). specialize (IH (upsert d ds)). lia.
Qed.

Lemma add_documents_fails_unchanged policy self docs ids meta
    (c c' : Client) e :
  add_documents policy self docs ids meta c = (Err e, c') → c' = c.
Proof.
  rewrite add_documents_unfold. unfold collection_add.
  destruct (decide _); [by intros [= _ <-] |].
  destruct (c !! collection self); [| by intros [= _ <-]].
  destruct policy; [| discriminate].
  destruct (decide _); [discriminate | by intros [= _ <-]].
Qed.

(** The documents endpoint, on a live collection, never lets an
    exception through.  An error reply is a 500 and leaves the store
    unchanged.  A 200 reply reports as [documents_added] the length of
    the request's document list, as [total_documents] the count read
    back from the store, and the total has grown by at most
    [documents_added]. *)
Theorem add_documents_reply policy server request (c : Client) tool ds :
  Api.vector_store server = Some tool →
  c !! collection tool = Some ds →
  ∃ reply (c' : Client),
    Api.add_documents policy server request c = (Ok reply, c')
    ∧ (∀ status detail,
         reply = Api.HTTPException status detail → status = 500%Z ∧ c' = c)
    ∧ (∀ body,
         reply = Api.Http200 body →
         Api.add_status body = "success"
         ∧ Api.documents_added body = length (Api.documents request)
         ∧ 1 ≤ Api.documents_added body
         ∧ c' !! collection tool
           = Some (default [] (c' !! collection tool))
         ∧ Api.total_documents body
           = length (default [] (c' !! collection tool))
         ∧ length ds ≤ Api.total_documents body
           ≤ length ds + Api.documents_added body).
Proof.
  intros Hserver Hc. unfold Api.add_documents. rewrite Hserver.
  unfold Api.try_except, bind.
  destruct (add_documents policy tool (Api.documents request)
              (Api.ids request) (Api.metadata request) c)
    as [[[]|e] c1] eqn:Hadd.
  - destruct (add_documents_inv _ _ _ _ _ _ _ Hadd)
      as (Hdocs & Hids & Hmetas & ds0 & Hc0 & Hc1).
    rewrite Hc in Hc0. injection Hc0 as <-.
    set (new := new_documents (Api.documents request)
                  (ids_used (Api.documents request) (Api.ids request))
                  (metadata_used (Api.documents request)
                     (Api.metadata request))) in *.
    assert (length new = length (Api.documents request)) as Hnew
      by (by apply new_documents_length).
    assert (∃ ds1, c1 !! collection tool = Some ds1
                   ∧ length ds ≤ length ds1
                     ≤ length ds + length (Api.documents request))
      as (ds1 & Hds1 & Hlen).
    { eexists. split; [rewrite Hc1; apply lookup_insert_eq |].
      destruct policy.
      - rewrite length_app. lia.
      - rewrite <-Hnew. apply foldl_upsert_length. }
    rewrite (stats_run _ _ ds1) by done. unfold ret.
    eexists _, _. split; [reflexivity |]. split; [done |].
    intros body [= <-]. cbn. rewrite Hds1. cbn.
    split_and!; try done; try lia.
    destruct (Api.documents request); [done | simpl; lia].
  - apply add_documents_fails_unchanged in Hadd as ->.
    eexists _, _. split; [reflexivity |]. split; [| done].
    by intros status detail [= <- _].
Qed.

(** Under the overwriting policy, posting again a request that was
    served, with pairwise distinct ids, is served again with the very
    same reply and leaves the store unchanged: [documents_added] counts
    the documents of the request, not the documents that are new. *)
Theorem add_documents_reply_repost server request (c c1 : Client) tool body :
  Api.vector_store server = Some tool →
  NoDup (ids_used (Api.documents request) (Api.ids request)) →
  Api.add_documents Overwrite server request c = (Ok (Api.Http200 body), c1) →
  Api.add_documents Overwrite server request c1 = (Ok (Api.Http200 body), c1)
  ∧ 1 ≤ Api.documents_added body.
Proof.
  intros Hserver Hnd. unfold Api.add_documents. rewrite Hserver.
  unfold Api.try_except, bind.
  destruct (add_documents Overwrite tool (Api.documents request)
              (Api.ids request) (Api.metadata request) c)
    as [[[]|e] c0] eqn:Hadd; [| discriminate].
  destruct (get_collection_stats tool c0) as [[stats|e] c0'] eqn:Hstats;
    [| discriminate].
  unfold ret. intros [= <- <-].
  destruct (stats_inv _ _ _ _ Hstats) as (ds & Hds & -> & ->).
  rewrite (add_documents_overwrite_idempotent _ _ _ _ _ _ Hnd Hadd).
  rewrite Hstats. split; [done |]. cbn.
  destruct (add_documents_inv _ _ _ _ _ _ _ Hadd) as (Hdocs & _).
  destruct (Api.documents request); [done | simpl; lia].
Qed.

(** With [use_context] unset the query endpoint answers 200 on every
    store, whatever [n_results] is and however the exchange with the
    language model ends: the prompt is the bare query, no document is
    reported, and a failed exchange shows only as the text of the
    response. *)
Theorem query_agent_without_context distance post server ag request
    (c : Client) :
  Api.agent server = Some ag →
  Api.use_context request = false →
  Api.query_agent distance post server request c
  = (Ok (Api.Http200
           (Agent.mkResponse (Api.query_text request)
              (Agent._call_ollama post ag (Api.query_text request))
              [] false (Agent.model ag))), c)
  ∧ (post (Agent.ollama_url ag +:+ "/api/generate")
       (Agent.mkPayload (Agent.model ag) (Api.query_text request) false
          (Agent.temperature ag) (Agent.max_tokens ag))
     = Agent.ConnectionError →
     Agent._call_ollama post ag (Api.query_text request)
     = "Error: Unable to connect to Ollama server. Make sure it's running.")
  ∧ (∀ message,
       post (Agent.ollama_url ag +:+ "/api/generate")
         (Agent.mkPayload (Agent.model ag) (Api.query_text request) false
            (Agent.temperature ag) (Agent.max_tokens ag))
       = Agent.OtherError message →
       Agent._call_ollama post ag (Api.query_text request)
       = "Error calling Ollama: " +:+ message).
Proof.
  intros Hagent Hctx. split_and!.
  - unfold Api.query_agent. rewrite Hagent.
    unfold Api.try_except, Agent.get_response, bind. by rewrite Hctx.
  - intros Hpost. unfold Agent._call_ollama. by rewrite Hpost.
  - intros message Hpost. unfold Agent._call_ollama. by rewrite Hpost.
Qed.

(** ** After the documents were cleared *)

Lemma clear_documents_inv (c c' : Client) body :
  Api.clear_documents started_server c = (Ok (Api.Http200 body), c') →
  is_Some (c !! "documents") ∧ c' = delete "documents" c.
Proof.
  unfold Api.clear_documents, started_server, Api.try_except, bind,
    delete_collection, client_delete_collection. simpl.
  destruct (c !! "documents") as [ds|]; [| discriminate].
  intros [= _ <-]. split; [by exists ds | done].
Qed.

(** Once the clear endpoint has answered 200, the started server is
    of no use until it is started again: the stats, search, documents
    and clear endpoints and the query endpoint with context all answer
    500, and the health check lets the storage error through.  A new
    startup event, where its constructions go through, loads the five
    samples again. *)
Theorem endpoints_after_clear setup distance policy post (c c' : Client)
    body :
  Api.clear_documents started_server c = (Ok (Api.Http200 body), c') →
  Api.get_stats started_server c'
  = (Ok (Api.HTTPException 500 (Api.ExceptionText StorageError)), c')
  ∧ Api.clear_documents started_server c'
    = (Ok (Api.HTTPException 500 (Api.ExceptionText StorageError)), c')
  ∧ Api.health_check started_server c' = (Err StorageError, c')
  ∧ (∀ request,
       ∃ e, Api.search_documents distance started_server request c'
            = (Ok (Api.HTTPException 500 (Api.ExceptionText e)), c'))
  ∧ (∀ request,
       ∃ e, Api.add_documents policy started_server request c'
            = (Ok (Api.HTTPException 500 (Api.ExceptionText e)), c'))
  ∧ (∀ request,
       Api.use_context request = true →
       ∃ e, Api.query_agent distance post started_server request c'
            = (Ok (Api.HTTPException 500 (Api.ExceptionText e)), c'))
  ∧ (setup_ok setup "./vector_store" →
     ∃ c'' : Client,
       Api.startup_event setup policy c' = (Ok started_server, c'')
       ∧ Api.health_check started_server c''
         = (Ok (Api.Http200 (Api.mkHealthBody "healthy" 5)), c'')).
Proof.
  intros Hclear. destruct (clear_documents_inv _ _ _ Hclear) as [_ ->].
  assert (delete "documents" c !! "documents" = None) as Hgone
    by apply lookup_delete_eq.
  split_and!.
  - unfold Api.get_stats, started_server, Api.try_except, bind,
      get_collection_stats, bind, collection_count. simpl. by rewrite Hgone.
  - unfold Api.clear_documents, started_server, Api.try_except, bind,
      delete_collection, client_delete_collection. simpl. by rewrite Hgone.
  - unfold Api.health_check, started_server, bind,
      get_collection_stats, bind, collection_count. simpl. by rewrite Hgone.
  - intros request. eexists.
    unfold Api.search_documents, started_server, Api.try_except, bind. simpl.
    rewrite search_fails; [reflexivity |].
    destruct (decide (Api.search_n_results request < 1)%Z); [by left |].
    by right.
  - intros request.
    unfold Api.add_documents, started_server, Api.try_except, bind. simpl.
    rewrite add_documents_unfold. unfold collection_add.
    destruct (decide _); [by eexists |].
    cbn [collection sample_tool]. rewrite Hgone. by eexists.
  - intros request Hctx. eexists.
    unfold Api.query_agent. cbn [Api.agent started_server].
    unfold Api.try_except. unfold bind at 1.
    rewrite Hctx. rewrite get_response_fails; [reflexivity |].
    cbn [Agent.vector_store default_agent collection sample_tool].
    destruct (decide (Api.query_n_results request < 1)%Z); [by left |].
    by right.
  - intros Hsetup. eexists. rewrite startup_event_run, Hgone by done. simpl.
    split; [reflexivity |].
    by rewrite (health_check_live _ sample_documents)
      by apply lookup_insert_eq.
Qed.

(** ** The quick start script *)

Lemma init_then_empty (c : Client) :
  default [] (c !! "documents") = [] →
  (match c !! "documents" with
   | Some _ => c
   | None => <["documents" := []]> c
   end) !! "documents" = Some []
  ∧ <["documents" := sample_documents]>
      (match c !! "documents" with
       | Some _ => c
       | None => <["documents" := []]> c
       end)
    = <["documents" := sample_documents]> c.
Proof.
  intros Hempty. destruct (c !! "documents") as [ds|] eqn:Hc; simpl in *.
  - by subst ds.
  - split; [apply lookup_insert_eq | apply insert_insert_eq].
Qed.

(** Where the tool can be constructed, on a client whose collection
    is missing or empty, [test_vector_store] loads the five samples and its search returns two
    documents, yet the stats it prints were read before loading and show
    a count of zero.  [load_documents] reads the stats after loading and
    shows five; run once more it shows five under the overwriting policy
    and the duplicate-id error under the rejecting one. *)
Theorem quickstart_reports setup distance policy (c : Client) :
  setup_ok setup "./vector_store" →
  default [] (c !! "documents") = [] →
  ∃ c' : Client,
    Quickstart.test_vector_store setup distance policy c
    = (Ok (Quickstart.Report
             (mkStats "documents" 0 "./vector_store", 2)), c')
    ∧ get_collection_stats sample_tool c'
      = (Ok (mkStats "documents" 5 "./vector_store"), c')
    ∧ Quickstart.load_documents setup policy c
      = (Ok (Quickstart.Report 5), c')
    ∧ Quickstart.load_documents setup policy c'
      = (Ok (match policy with
             | Overwrite => Quickstart.Report 5
             | Reject => Quickstart.ErrorReport DuplicateIdError
             end), c').
Proof.
  intros Hsetup Hempty. exists (<["documents" := sample_documents]> c).
  destruct (init_then_empty c Hempty) as [Hlive Hstore].
  assert (load_sample_documents policy sample_tool
            (match c !! "documents" with
             | Some _ => c
             | None => <["documents" := []]> c
             end)
          = (Ok (), <["documents" := sample_documents]> c)) as Hload.
  { rewrite (load_sample_documents_run _ _ _ []);
      [by rewrite <-Hstore | done |].
    apply Forall_forall. intros i _. apply not_elem_of_nil. }
  assert ((<["documents" := sample_documents]> c : Client) !! "documents"
          = Some sample_documents) as Hc' by apply lookup_insert_eq.
  split_and!.
  - unfold Quickstart.test_vector_store, Quickstart.try_print, bind.
    rewrite ChromaTool_init_run by done. unfold ret at 1.
    fold sample_tool. rewrite (stats_run _ _ []) by done.
    cbn [document_count length Nat.eqb]. rewrite Hload.
    rewrite (search_run _ _ _ _ _ sample_documents) by (done || lia).
    unfold dict_strs. rewrite result_dict_documents. unfold ret.
    by rewrite length_fmap, rank_length.
  - by rewrite (stats_run _ _ sample_documents).
  - unfold Quickstart.load_documents, Quickstart.try_print, bind.
    rewrite ChromaTool_init_run by done. unfold ret at 1. fold sample_tool.
    rewrite Hload. by rewrite (stats_run _ _ sample_documents).
  - unfold Quickstart.load_documents, Quickstart.try_print, bind.
    rewrite (ChromaTool_init_live _ _ _ _ sample_documents) by done.
    unfold ret at 1. fold sample_tool.
    assert (load_sample_documents policy sample_tool
              (<["documents" := []]> c)
            = (Ok (), <["documents" := sample_documents]> c)) as Hload'.
    { rewrite (load_sample_documents_run _ _ _ []);
        [by rewrite insert_insert_eq | apply lookup_insert_eq |].
      apply Forall_forall. intros i _. apply not_elem_of_nil. }
    rewrite (load_sample_documents_again _ _ _ _ Hload').
    destruct policy; [done |].
    by rewrite (stats_run _ _ sample_documents).
Qed.

(** ** Reading never writes *)

Lemma search_formatted_fails distance self q n (c : Client) :
  (n < 1)%Z ∨ c !! collection self = None →
  search_formatted distance self q n c
  = (Err (if decide (n < 1)%Z then InvalidArgument else StorageError), c).
Proof.
  intros Hbad. unfold search_formatted, bind. by rewrite search_fails.
Qed.

(** [search], [search_formatted] and [get_collection_stats] never
    change the store, whether they succeed or fail. *)
Theorem queries_leave_store distance self q n (c : Client) :
  (search distance self q n c).2 = c
  ∧ (search_formatted distance self q n c).2 = c
  ∧ (get_collection_stats self c).2 = c.
Proof.
  assert ((search_formatted distance self q n c).2 = c) as Hfmt.
  { destruct (decide (n < 1)%Z) as [Hn|Hn].
    { by rewrite search_formatted_fails by (by left). }
    destruct (c !! collection self) as [ds|] eqn:Hc.
    - by rewrite (search_formatted_run _ _ _ _ _ ds) by (done || lia).
    - by rewrite search_formatted_fails by (by right). }
  split_and!; [| done |].
  - destruct (decide (n < 1)%Z) as [Hn|Hn].
    { by rewrite search_fails by (by left). }
    destruct (c !! collection self) as [ds|] eqn:Hc.
    + by rewrite (search_run _ _ _ _ _ ds) by (done || lia).
    + by rewrite search_fails by (by right).
  - unfold get_collection_stats, bind, collection_count.
    by destruct (c !! collection self).
Qed.


(** Entry [i] of the lists [ids], [documents] and [metadatas] of a
    search result describes one document the collection holds: its id,
    its text and its metadata. *)
Theorem search_result_entries distance self q n (c c' : Client) r
    ids docs metas i id :
  search distance self q n c = (Ok r, c') →
  r !! "ids" = Some (VStrs ids) →
  r !! "documents" = Some (VStrs docs) →
  r !! "metadatas" = Some (VMetas metas) →
  ids !! i = Some id →
  ∃ ds d,
    c !! collection self = Some ds
    ∧ d ∈ ds
    ∧ doc_id d = id
    ∧ docs !! i = Some (doc_text d)
    ∧ metas !! i = Some (doc_meta d).
Proof.
  intros Hsearch Hids Hdocs Hmetas Hi.
  destruct (search_inv _ _ _ _ _ _ _ Hsearch) as (Hn & ds & Hc & -> & ->).
  unfold result_dict in *. simplify_map_eq.
  rewrite list_lookup_fmap in Hi.
  destruct (rank distance q (Z.to_nat n) ds !! i) as [[d x]|] eqn:Hrow;
    [| done].
  injection Hi as <-. exists ds, d. split_and!; try done.
  - apply (rank_hits distance q (Z.to_nat n)).
    apply list_elem_of_fmap. exists (d, x). split; [done |].
    by eapply list_elem_of_lookup_2.
  - by rewrite list_lookup_fmap, Hrow.
  - by rewrite list_lookup_fmap, Hrow.
Qed.

(** ** Finding what was added *)

Lemma rank_all distance q n ds :
  length ds ≤ n → fst <$> rank distance q n ds ≡ₚ ds.
Proof.
  intros Hn. unfold rank. rewrite take_ge.
  - rewrite merge_sort_Permutation, <-list_fmap_compose.
    by rewrite list_fmap_id.
  - by rewrite merge_sort_Permutation, length_fmap.
Qed.

(** A document that was added is found again: after a successful
    [add_documents] under fresh ids, a search for at least as many
    results as the collection holds returns the texts of the collection,
    the added ones among them. *)
Theorem add_then_search distance policy self docs ids meta q n
    (c c' : Client) ds :
  c !! collection self = Some ds →
  NoDup (ids_used docs ids) →
  Forall (λ i, i ∉ doc_id <$> ds) (ids_used docs ids) →
  add_documents policy self docs ids meta c = (Ok (), c') →
  (1 ≤ n)%Z →
  length ds + length docs ≤ Z.to_nat n →
  ∃ r found,
    search distance self q n c' = (Ok r, c')
    ∧ r !! "documents" = Some (VStrs found)
    ∧ found ≡ₚ (doc_text <$> ds) ++ docs
    ∧ ∀ text, text ∈ docs → text ∈ found.
Proof.
  intros Hc Hnd Hfresh Hadd Hn Hlen.
  destruct (add_documents_inv _ _ _ _ _ _ _ Hadd)
    as (Hdocs & Hids & Hmetas & ds0 & Hc0 & Hc').
  rewrite Hc in Hc0. injection Hc0 as <-.
  set (new := new_documents docs (ids_used docs ids)
                (metadata_used docs meta)) in *.
  assert (c' !! collection self = Some (ds ++ new)) as Hlook.
  { rewrite Hc', lookup_insert_eq. f_equal. destruct policy; [done |].
    apply foldl_upsert_fresh; unfold new; by rewrite new_documents_ids. }
  set (row := rank distance q (Z.to_nat n) (ds ++ new)).
  assert ((doc_text ∘ fst) <$> row ≡ₚ (doc_text <$> ds) ++ docs) as Hperm.
  { rewrite list_fmap_compose. unfold row. rewrite rank_all.
    - rewrite fmap_app. unfold new. by rewrite new_documents_texts.
    - rewrite length_app. unfold new. rewrite new_documents_length; done. }
  exists (result_dict row), ((doc_text ∘ fst) <$> row).
  split; [by apply search_run |].
  split; [apply result_dict_documents |].
  split; [done |].
  intros text Htext. rewrite Hperm. apply elem_of_app. by right.
Qed.

(** ** The further properties on the sample store *)

Lemma sample_store_documents :
  sample_store !! "documents" = Some sample_documents.
Proof. vm_compute. reflexivity. Qed.

Lemma add_documents_keeps_ids_unique_witness :
  sample_store !! collection sample_tool = Some sample_documents
  ∧ NoDup (doc_id <$> sample_documents)
  ∧ add_documents Overwrite sample_tool (Api.documents test_request)
      (Api.ids test_request) (Api.metadata test_request) sample_store
    = (Ok (), tested_store)
  ∧ ∃ ds',
      tested_store !! collection sample_tool = Some ds'
      ∧ NoDup (doc_id <$> ds')
      ∧ (∀ i, i ∈ doc_id <$> sample_documents → i ∈ doc_id <$> ds')
      ∧ length sample_documents ≤ length ds'
        ≤ length sample_documents + length (Api.documents test_request)
      ∧ (∀ other, other ≠ collection sample_tool →
                  tested_store !! other = sample_store !! other).
Proof.
  assert (sample_store !! collection sample_tool = Some sample_documents)
    as H1 by (vm_compute; reflexivity).
  assert (NoDup (doc_id <$> sample_documents)) as H2
    by (apply (bool_decide_unpack _); vm_compute; exact I).
  assert (add_documents Overwrite sample_tool (Api.documents test_request)
            (Api.ids test_request) (Api.metadata test_request) sample_store
          = (Ok (), tested_store)) as H3 by (vm_compute; reflexivity).
  split_and!; [done.. |].
  exact (add_documents_keeps_ids_unique Overwrite sample_tool _ _ _
           sample_store tested_store sample_documents H1 H2 H3).
Defined.

Lemma add_documents_twice_collides_witness :
  sample_docs ≠ []
  ∧ add_documents Reject sample_tool sample_docs None None empty_store
    = (Ok (), (add_documents Reject sample_tool sample_docs None None
                 empty_store).2)
  ∧ add_documents Reject sample_tool sample_docs None None
      (add_documents Reject sample_tool sample_docs None None empty_store).2
    = (Err DuplicateIdError,
       (add_documents Reject sample_tool sample_docs None None
          empty_store).2).
Proof.
  assert (sample_docs ≠ []) as H1 by done.
  assert (add_documents Reject sample_tool sample_docs None None empty_store
          = (Ok (), (add_documents Reject sample_tool sample_docs None None
                       empty_store).2)) as H2 by (vm_compute; reflexivity).
  split_and!; [done.. |].
  exact (add_documents_twice_collides sample_tool sample_docs sample_docs
           None empty_store _ H1 H2).
Defined.

Lemma add_documents_twice_replaces_witness :
  empty_store !! collection sample_tool = Some []
  ∧ add_documents Overwrite sample_tool ["first"; "second"] None None
      empty_store
    = (Ok (), (add_documents Overwrite sample_tool ["first"; "second"]
                 None None empty_store).2)
  ∧ length ["third"; "fourth"] = length ["first"; "second"]
  ∧ ∃ (c2 : Client) ds2,
      add_documents Overwrite sample_tool ["third"; "fourth"] None None
        (add_documents Overwrite sample_tool ["first"; "second"] None None
           empty_store).2
      = (Ok (), c2)
      ∧ c2 !! collection sample_tool = Some ds2
      ∧ doc_text <$> ds2 = ["third"; "fourth"]
      ∧ doc_id <$> ds2 = generated_ids ["first"; "second"]
      ∧ get_collection_stats sample_tool c2
        = (Ok (mkStats (collection_name sample_tool)
                 (length ["first"; "second"]) (persist_dir sample_tool)),
           c2).
Proof.
  assert (empty_store !! collection sample_tool = Some []) as H1
    by (vm_compute; reflexivity).
  assert (add_documents Overwrite sample_tool ["first"; "second"] None None
            empty_store
          = (Ok (), (add_documents Overwrite sample_tool ["first"; "second"]
                       None None empty_store).2)) as H2
    by (vm_compute; reflexivity).
  split_and!; [done.. |].
  exact (add_documents_twice_replaces sample_tool ["first"; "second"]
           ["third"; "fourth"] None empty_store _ H1 H2 eq_refl).
Defined.

Lemma add_documents_overwrite_idempotent_witness :
  NoDup (ids_used (Api.documents test_request) (Api.ids test_request))
  ∧ add_documents Overwrite sample_tool (Api.documents test_request)
      (Api.ids test_request) (Api.metadata test_request) sample_store
    = (Ok (), tested_store)
  ∧ add_documents Overwrite sample_tool (Api.documents test_request)
      (Api.ids test_request) (Api.metadata test_request) tested_store
    = (Ok (), tested_store).
Proof.
  assert (NoDup (ids_used (Api.documents test_request)
                   (Api.ids test_request))) as H1
    by (apply (bool_decide_unpack _); vm_compute; exact I).
  assert (add_documents Overwrite sample_tool (Api.documents test_request)
            (Api.ids test_request) (Api.metadata test_request) sample_store
          = (Ok (), tested_store)) as H2 by (vm_compute; reflexivity).
  split_and!; [done.. |].
  exact (add_documents_overwrite_idempotent sample_tool _ _ _
           sample_store tested_store H1 H2).
Defined.

Lemma load_sample_documents_adds_five_witness :
  empty_store !! collection sample_tool = Some []
  ∧ Forall (λ i, i ∉ doc_id <$> ([] : list Document))
      ["sample_doc_0"; "sample_doc_1"; "sample_doc_2"; "sample_doc_3";
       "sample_doc_4"]
  ∧ ∃ c' : Client,
      load_sample_documents Reject sample_tool empty_store = (Ok (), c')
      ∧ c' !! collection sample_tool = Some ([] ++ sample_documents)
      ∧ doc_text <$> sample_documents = sample_docs
      ∧ Forall (λ d, source_line (doc_meta d) = "Source: sample" +:+ LF)
          sample_documents
      ∧ get_collection_stats sample_tool c'
        = (Ok (mkStats (collection_name sample_tool)
                 (length ([] : list Document) + 5)
                 (persist_dir sample_tool)), c').
Proof.
  assert (empty_store !! collection sample_tool = Some []) as H1
    by (vm_compute; reflexivity).
  assert (Forall (λ i, i ∉ doc_id <$> ([] : list Document))
            ["sample_doc_0"; "sample_doc_1"; "sample_doc_2"; "sample_doc_3";
             "sample_doc_4"]) as H2
    by (apply (bool_decide_unpack _); vm_compute; exact I).
  split_and!; [done.. |].
  exact (load_sample_documents_adds_five Reject sample_tool empty_store []
           H1 H2).
Defined.

Lemma load_sample_documents_again_witness :
  load_sample_documents Overwrite sample_tool empty_store
  = (Ok (), sample_store)
  ∧ load_sample_documents Overwrite sample_tool sample_store
    = (Ok (), sample_store).
Proof.
  assert (load_sample_documents Overwrite sample_tool empty_store
          = (Ok (), sample_store)) as H1 by (vm_compute; reflexivity).
  split; [done |].
  exact (load_sample_documents_again Overwrite sample_tool empty_store
           sample_store H1).
Defined.

(** A call that does not succeed commits nothing, whatever the
    reason of the failure. *)
Theorem add_documents_all_or_nothing policy self docs ids meta (c : Client) :
  (add_documents policy self docs ids meta c).1 = Ok ()
  ∨ (add_documents policy self docs ids meta c).2 = c.
Proof.
  destruct (add_documents policy self docs ids meta c) as [[[]|e] c'] eqn:Hadd.
  - by left.
  - right. by apply add_documents_fails_unchanged in Hadd.
Qed.

Lemma search_result_entries_witness :
  search length_distance sample_tool "What is MCP?" 2 sample_store
  = (Ok sample_result, sample_store)
  ∧ sample_result !! "ids" = Some (VStrs ["sample_doc_2"; "sample_doc_1"])
  ∧ sample_result !! "documents"
    = Some (VStrs [default EmptyString (sample_docs !! 2);
                   default EmptyString (sample_docs !! 1)])
  ∧ sample_result !! "metadatas"
    = Some (VMetas
              (replicate 2 {["source" := "sample"; "type" := "general_info"]}))
  ∧ ["sample_doc_2"; "sample_doc_1"] !! 0 = Some "sample_doc_2"
  ∧ ∃ ds d,
      sample_store !! collection sample_tool = Some ds
      ∧ d ∈ ds
      ∧ doc_id d = "sample_doc_2"
      ∧ [default EmptyString (sample_docs !! 2);
         default EmptyString (sample_docs !! 1)] !! 0
        = Some (doc_text d)
      ∧ replicate 2 ({["source" := "sample"; "type" := "general_info"]}
                       : Metadata) !! 0
        = Some (doc_meta d).
Proof.
  assert (search length_distance sample_tool "What is MCP?" 2 sample_store
          = (Ok sample_result, sample_store)) as H1
    by (vm_compute; reflexivity).
  assert (sample_result !! "ids"
          = Some (VStrs ["sample_doc_2"; "sample_doc_1"])) as H2
    by (vm_compute; reflexivity).
  assert (sample_result !! "documents"
          = Some (VStrs [default EmptyString (sample_docs !! 2);
                         default EmptyString (sample_docs !! 1)])) as H3
    by (vm_compute; reflexivity).
  assert (sample_result !! "metadatas"
          = Some (VMetas
                    (replicate 2
                       {["source" := "sample"; "type" := "general_info"]})))
    as H4 by (vm_compute; reflexivity).
  split_and!; [done.. |].
  exact (search_result_entries length_distance sample_tool "What is MCP?" 2
           sample_store sample_store sample_result _ _ _ 0 "sample_doc_2"
           H1 H2 H3 H4 eq_refl).
Defined.

Lemma add_then_search_witness :
  sample_store !! collection sample_tool = Some sample_documents
  ∧ NoDup (ids_used (Api.documents test_request) (Api.ids test_request))
  ∧ Forall (λ i, i ∉ doc_id <$> sample_documents)
      (ids_used (Api.documents test_request) (Api.ids test_request))
  ∧ add_documents Overwrite sample_tool (Api.documents test_request)
      (Api.ids test_request) (Api.metadata test_request) sample_store
    = (Ok (), tested_store)
  ∧ (1 ≤ 6)%Z
  ∧ length sample_documents + length (Api.documents test_request)
    ≤ Z.to_nat 6
  ∧ ∃ r found,
      search length_distance sample_tool "test document" 6 tested_store
      = (Ok r, tested_store)
      ∧ r !! "documents" = Some (VStrs found)
      ∧ found ≡ₚ (doc_text <$> sample_documents)
                 ++ Api.documents test_request
      ∧ ∀ text, text ∈ Api.documents test_request → text ∈ found.
Proof.
  assert (sample_store !! collection sample_tool = Some sample_documents)
    as H1 by (vm_compute; reflexivity).
  assert (NoDup (ids_used (Api.documents test_request)
                   (Api.ids test_request))) as H2
    by (apply (bool_decide_unpack _); vm_compute; exact I).
  assert (Forall (λ i, i ∉ doc_id <$> sample_documents)
            (ids_used (Api.documents test_request) (Api.ids test_request)))
    as H3 by (apply (bool_decide_unpack _); vm_compute; exact I).
  assert (add_documents Overwrite sample_tool (Api.documents test_request)
            (Api.ids test_request) (Api.metadata test_request) sample_store
          = (Ok (), tested_store)) as H4 by (vm_compute; reflexivity).
  assert (length sample_documents + length (Api.documents test_request)
          ≤ Z.to_nat 6) as H6 by (vm_compute; lia).
  split_and!; [done | done | done | done | lia | done |].
  exact (add_then_search length_distance Overwrite sample_tool _ _ _
           "test document" 6 sample_store tested_store sample_documents
           H1 H2 H3 H4 ltac:(lia) H6).
Defined.

Lemma call_ollama_reply_witness :
  echo_post (Agent.ollama_url default_agent +:+ "/api/generate")
    (Agent.mkPayload (Agent.model default_agent) "What is MCP?" false
       (Agent.temperature default_agent) (Agent.max_tokens default_agent))
  = Agent.JsonObject
      {[ "response" := Agent.JString ("  What is MCP?" +:+ LF) ]}
  ∧ ({[ "response" := Agent.JString ("  What is MCP?" +:+ LF) ]}
       : gmap string Agent.JsonValue) !! "response"
    = Some (Agent.JString ("  What is MCP?" +:+ LF))
  ∧ Agent._call_ollama echo_post default_agent "What is MCP?"
    = py_strip ("  What is MCP?" +:+ LF)
  ∧ py_strip ("  What is MCP?" +:+ LF) = "What is MCP?".
Proof.
  assert (echo_post (Agent.ollama_url default_agent +:+ "/api/generate")
            (Agent.mkPayload (Agent.model default_agent) "What is MCP?" false
               (Agent.temperature default_agent)
               (Agent.max_tokens default_agent))
          = Agent.JsonObject
              {[ "response" := Agent.JString ("  What is MCP?" +:+ LF) ]})
    as H1 by reflexivity.
  assert (({[ "response" := Agent.JString ("  What is MCP?" +:+ LF) ]}
             : gmap string Agent.JsonValue) !! "response"
          = Some (Agent.JString ("  What is MCP?" +:+ LF))) as H2
    by (vm_compute; reflexivity).
  split_and!; [done | done | | vm_compute; reflexivity].
  exact (proj1 (proj2 (call_ollama_reply echo_post default_agent
                         "What is MCP?" _ H1) _ H2)).
Defined.

Lemma get_response_with_context_witness :
  sample_store !! collection (Agent.vector_store default_agent)
  = Some sample_documents
  ∧ (1 ≤ 2)%Z
  ∧ ∃ r docs metas context,
      search length_distance (Agent.vector_store default_agent)
        "What is MCP?" 2 sample_store = (Ok r, sample_store)
      ∧ r !! "documents" = Some (VStrs docs)
      ∧ r !! "metadatas" = Some (VMetas metas)
      ∧ length metas = length docs
      ∧ length docs ≤ Z.to_nat 2 `min` length sample_documents
      ∧ context = (if bool_decide (docs = []) then no_documents_found
                   else header +:+ blocks 1 (zip docs metas))
      ∧ Agent.get_response length_distance echo_post default_agent
          "What is MCP?" true 2 sample_store
        = (Ok (Agent.mkResponse "What is MCP?"
                 (Agent._call_ollama echo_post default_agent
                    (Agent.build_prompt "What is MCP?" context))
                 docs true (Agent.model default_agent)), sample_store)
      ∧ String.length (Agent.build_prompt "What is MCP?" context)
        ≤ 418 + String.length "What is MCP?"
          + blocks_bound 1 (zip docs metas).
Proof.
  assert (sample_store !! collection (Agent.vector_store default_agent)
          = Some sample_documents) as H1 by (vm_compute; reflexivity).
  split_and!; [done | lia |].
  exact (get_response_with_context length_distance echo_post default_agent
           "What is MCP?" 2 sample_store sample_documents H1 ltac:(lia)).
Defined.

Lemma get_response_fails_witness :
  ((0 < 1)%Z
   ∨ sample_store !! collection (Agent.vector_store default_agent) = None)
  ∧ Agent.get_response length_distance echo_post default_agent
      "What is MCP?" true 0 sample_store
    = (Err (if decide (0 < 1)%Z then InvalidArgument else StorageError),
       sample_store).
Proof.
  assert ((0 < 1)%Z
          ∨ sample_store !! collection (Agent.vector_store default_agent)
            = None) as H1 by (left; lia).
  split; [done |].
  exact (get_response_fails length_distance echo_post default_agent
           "What is MCP?" 0 sample_store H1).
Defined.

Lemma add_documents_reply_witness :
  Api.vector_store started_server = Some sample_tool
  ∧ sample_store !! collection sample_tool = Some sample_documents
  ∧ ∃ reply (c' : Client),
      Api.add_documents Overwrite started_server test_request sample_store
      = (Ok reply, c')
      ∧ (∀ status detail,
           reply = Api.HTTPException status detail →
           status = 500%Z ∧ c' = sample_store)
      ∧ (∀ body,
           reply = Api.Http200 body →
           Api.add_status body = "success"
           ∧ Api.documents_added body = length (Api.documents test_request)
           ∧ 1 ≤ Api.documents_added body
           ∧ c' !! collection sample_tool
             = Some (default [] (c' !! collection sample_tool))
           ∧ Api.total_documents body
             = length (default [] (c' !! collection sample_tool))
           ∧ length sample_documents ≤ Api.total_documents body
             ≤ length sample_documents + Api.documents_added body).
Proof.
  assert (sample_store !! collection sample_tool = Some sample_documents)
    as H2 by (vm_compute; reflexivity).
  split_and!; [done | done |].
  exact (add_documents_reply Overwrite started_server test_request
           sample_store sample_tool sample_documents eq_refl H2).
Defined.

Lemma add_documents_reply_repost_witness :
  Api.vector_store started_server = Some sample_tool
  ∧ NoDup (ids_used (Api.documents test_request) (Api.ids test_request))
  ∧ Api.add_documents Overwrite started_server test_request sample_store
    = (Ok (Api.Http200 (Api.mkAddBody "success" 1 6)), tested_store)
  ∧ Api.add_documents Overwrite started_server test_request tested_store
    = (Ok (Api.Http200 (Api.mkAddBody "success" 1 6)), tested_store)
  ∧ 1 ≤ Api.documents_added (Api.mkAddBody "success" 1 6).
Proof.
  assert (NoDup (ids_used (Api.documents test_request)
                   (Api.ids test_request))) as H2
    by (apply (bool_decide_unpack _); vm_compute; exact I).
  assert (Api.add_documents Overwrite started_server test_request sample_store
          = (Ok (Api.Http200 (Api.mkAddBody "success" 1 6)), tested_store))
    as H3 by (vm_compute; reflexivity).
  split_and!; [done | done | done | |];
    apply (add_documents_reply_repost started_server test_request
             sample_store tested_store sample_tool
             (Api.mkAddBody "success" 1 6) eq_refl H2 H3).
Defined.

Lemma query_agent_without_context_witness :
  Api.agent started_server = Some default_agent
  ∧ Api.use_context (Api.mkQueryRequest "What is AI?" false 3) = false
  ∧ Api.query_agent length_distance unreachable_post started_server
      (Api.mkQueryRequest "What is AI?" false 3) cleared_store
    = (Ok (Api.Http200
             (Agent.mkResponse "What is AI?"
                (Agent._call_ollama unreachable_post default_agent
                   "What is AI?")
                [] false (Agent.model default_agent))), cleared_store)
  ∧ Agent._call_ollama unreachable_post default_agent "What is AI?"
    = "Error: Unable to connect to Ollama server. Make sure it's running.".
Proof.
  split_and!; [done | done | |].
  - exact (proj1 (query_agent_without_context length_distance
                    unreachable_post started_server default_agent
                    (Api.mkQueryRequest "What is AI?" false 3) cleared_store
                    eq_refl eq_refl)).
  - exact (proj1 (proj2 (query_agent_without_context length_distance
                           unreachable_post started_server default_agent
                           (Api.mkQueryRequest "What is AI?" false 3)
                           cleared_store eq_refl eq_refl)) eq_refl).
Defined.

Lemma endpoints_after_clear_witness :
  Api.clear_documents started_server sample_store
  = (Ok (Api.Http200 (Api.mkClearBody "success" "All documents cleared")),
     cleared_store)
  ∧ Api.get_stats started_server cleared_store
    = (Ok (Api.HTTPException 500 (Api.ExceptionText StorageError)),
       cleared_store)
  ∧ Api.health_check started_server cleared_store
    = (Err StorageError, cleared_store).
Proof.
  assert (Api.clear_documents started_server sample_store
          = (Ok (Api.Http200
                   (Api.mkClearBody "success" "All documents cleared")),
             cleared_store)) as H1 by (vm_compute; reflexivity).
  split; [done |].
  destruct (endpoints_after_clear working_setup length_distance Overwrite
              echo_post sample_store cleared_store _ H1)
    as (Hstats & _ & Hhealth & _).
  by split.
Defined.

Lemma quickstart_reports_witness :
  setup_ok working_setup "./vector_store"
  ∧ default [] ((∅ : Client) !! "documents") = []
  ∧ ∃ c' : Client,
      Quickstart.test_vector_store working_setup length_distance Reject ∅
      = (Ok (Quickstart.Report
               (mkStats "documents" 0 "./vector_store", 2)), c')
      ∧ get_collection_stats sample_tool c'
        = (Ok (mkStats "documents" 5 "./vector_store"), c')
      ∧ Quickstart.load_documents working_setup Reject ∅
        = (Ok (Quickstart.Report 5), c')
      ∧ Quickstart.load_documents working_setup Reject c'
        = (Ok (Quickstart.ErrorReport DuplicateIdError), c').
Proof.
  split; [by split_and! |]. split; [reflexivity |].
  exact (quickstart_reports working_setup length_distance Reject ∅
           (conj eq_refl (conj eq_refl eq_refl)) eq_refl).
Defined.


Lemma startup_event_populates_witness :
  setup_ok working_setup "./vector_store"
  ∧ ∃ (c' : Client) n,
      Api.startup_event working_setup Reject ∅ = (Ok started_server, c')
      ∧ c' !! "documents"
        = Some (if decide (default [] ((∅ : Client) !! "documents") = [])
                then sample_documents
                else default [] ((∅ : Client) !! "documents"))
      ∧ (∀ other, other ≠ "documents" → c' !! other = (∅ : Client) !! other)
      ∧ Api.health_check started_server c'
        = (Ok (Api.Http200 (Api.mkHealthBody "healthy" n)), c')
      ∧ 1 ≤ n
      ∧ n = (if decide (default [] ((∅ : Client) !! "documents") = [])
             then 5
             else length (default [] ((∅ : Client) !! "documents"))).
Proof.
  split; [by split_and! |].
  exact (startup_event_populates working_setup Reject ∅
           (conj eq_refl (conj eq_refl eq_refl))).
Defined.
